(** * Excel splitter service: a shallow embedding of [app.py]

    The service loads an uploaded workbook, keeps the visible sheets and
    rebuilds each of them as a workbook of its own.  This file embeds the
    pure helpers ([sanitize_filename], [allowed_file]), the object model of
    the spreadsheet library as far as the service touches it, with what the
    assignments and calls of the service do on it, and
    [split_excel_by_sheets_simple] with its logger calls and its two levels
    of exception handlers, and states the properties of the written
    specification against them. *)

From Stdlib Require Import ZArith QArith Qcanon Ascii String DecimalString.
From stdpp Require Import gmap strings list fin_maps.

Local Open Scope Z_scope.
#[local] Set Warnings "-clear-no-such-hyp".

(** ** Python built-ins used by the service

    A Python [str] is modelled as a [string]: the characters are the code
    points below 256, which covers every character the service inspects. *)
Module Py.

Definition len (s : string) : Z := Z.of_nat (String.length s).

(** [c in chars]. *)
Definition char_in (c : ascii) (chars : string) : bool :=
  existsb (Ascii.eqb c) (list_ascii_of_string chars).

(** [s.lstrip(chars)]. *)
Fixpoint lstrip (chars s : string) : string :=
  match s with
  | EmptyString => EmptyString
  | String a s' => if char_in a chars then lstrip chars s' else s
  end.

(** [s.rstrip(chars)]. *)
Fixpoint rstrip (chars s : string) : string :=
  match s with
  | EmptyString => EmptyString
  | String a s' =>
      match rstrip chars s' with
      | EmptyString => if char_in a chars then EmptyString else String a EmptyString
      | r => String a r
      end
  end.

(** [s.strip(chars)]. *)
Definition strip (chars s : string) : string := rstrip chars (lstrip chars s).

(** [s.rfind(c)] for a one-character needle, with the offset [i] of the
    first character of [s]; [-1] when [c] does not occur. *)
Fixpoint rfind_from (c : ascii) (s : string) (i : Z) : Z :=
  match s with
  | EmptyString => -1
  | String a s' =>
      let r := rfind_from c s' (i + 1) in
      if 0 <=? r then r else if Ascii.eqb a c then i else -1
  end.

Definition rfind (c : ascii) (s : string) : Z := rfind_from c s 0.

(** [s[:k]]: a negative [k] counts from the end. *)
Definition slice_to (s : string) (k : Z) : string :=
  let stop := if k <? 0 then Z.max 0 (len s + k) else Z.min k (len s) in
  String.substring 0 (Z.to_nat stop) s.

(** [s[k:]] for [0 <= k]. *)
Definition slice_from (s : string) (k : Z) : string :=
  String.substring (Z.to_nat k) (String.length s - Z.to_nat k) s.

(** The loop of [genericpath._splitext] that skips the leading dots of the
    file name: [n] positions remain before the last dot; the answer is
    [true] when one of them holds something else than a dot. *)
Fixpoint has_name_before_dot (p : string) (filenameIndex n : nat) : bool :=
  match n with
  | O => false
  | S n' =>
      match String.get filenameIndex p with
      | Some "."%char => has_name_before_dot p (S filenameIndex) n'
      | _ => true
      end
  end.

(** [os.path.splitext(p)] (posixpath: [sep] is the slash, no [altsep]). *)
Definition splitext (p : string) : string * string :=
  let sepIndex := rfind "/" p in
  let dotIndex := rfind "." p in
  if (sepIndex <? dotIndex)
     && has_name_before_dot p (Z.to_nat (sepIndex + 1))
          (Z.to_nat (dotIndex - (sepIndex + 1)))
  then (slice_to p dotIndex, slice_from p dotIndex)
  else (p, EmptyString).

(** [c.lower()] on the ASCII letters. *)
Definition lower_char (c : ascii) : ascii :=
  let n := nat_of_ascii c in
  if (65 <=? n)%nat && (n <=? 90)%nat then ascii_of_nat (n + 32) else c.

Definition lower (s : string) : string :=
  string_of_list_ascii (map lower_char (list_ascii_of_string s)).

(** [str(n)] for a length. *)
Definition str_of_nat (n : nat) : string := NilZero.string_of_uint (Nat.to_uint n).

Definition str_of_Z (z : Z) : string := NilZero.string_of_int (Z.to_int z).

(** [sep.join(l)]. *)
Definition join (sep : string) (l : list string) : string := String.concat sep l.

End Py.

(** ** Configuration and file names *)

(** The characters that the pattern of [sanitize_filename] matches: less
    than, greater than, colon, double quote (code 34), slash, backslash,
    bar, question mark and star. *)
Definition invalid_chars : string :=
  String "<" (String ">" (String ":" (String "034" (String "/"
    (String "\" (String "|" (String "?" (String "*" EmptyString)))))))).

(** [re.sub] of that character class by an underscore. *)
Fixpoint re_sub_invalid (filename : string) : string :=
  match filename with
  | EmptyString => EmptyString
  | String a s =>
      String (if Py.char_in a invalid_chars then "_"%char else a) (re_sub_invalid s)
  end.

Definition sanitize_filename (filename : string) : string :=
  let sanitized := re_sub_invalid filename in
  let sanitized := Py.strip ". " sanitized in
  let max_length := 100 in
  let sanitized :=
    if max_length <? Py.len sanitized then
      let '(name, ext) := Py.splitext sanitized in
      Py.slice_to name (max_length - Py.len ext) +:+ ext
    else sanitized in
  if String.eqb sanitized EmptyString then "unnamed"%string else sanitized.

Definition ALLOWED_EXTENSIONS : list string := ["xlsx"; "xls"; "xlsm"; "xlsb"]%string.

(** ['.' in filename and filename.rsplit('.', 1)[1].lower() in
    ALLOWED_EXTENSIONS]. *)
Definition allowed_file (filename : string) : bool :=
  let dotIndex := Py.rfind "." filename in
  (0 <=? dotIndex)
  && existsb (String.eqb (Py.lower (Py.slice_from filename (dotIndex + 1))))
       ALLOWED_EXTENSIONS.


(** The ceilings come from the environment of the process; [MAX_SHEETS] is
    the only one the splitting function reads. *)
Class Config := { MAX_SHEETS : Z }.

(** ** Exceptions and the logger

    A Python exception is modelled by its message, [str(e)], which is all
    the handlers of the service use.  A computation yields a value or raises,
    and leaves the records it handed to the logger. *)
Inductive result (A : Type) : Type :=
  | Ok (a : A)
  | Raise (e : string).
Arguments Ok {A} a.
Arguments Raise {A} e.

Inductive Level := DEBUG | INFO | WARNING | ERROR.

Definition LogRecord : Type := Level * string.

Definition Logged (A : Type) : Type := result A * list LogRecord.

Definition ret {A} (a : A) : Logged A := (Ok a, []).

Definition bind {A B} (m : Logged A) (k : A -> Logged B) : Logged B :=
  match m with
  | (Ok a, l) => let '(r, l') := k a in (r, l ++ l')
  | (Raise e, l) => (Raise e, l)
  end.

(** A call into the library: it answers or raises, and logs nothing. *)
Definition call {A} (r : result A) : Logged A := (r, []).

Definition emit (l : list LogRecord) : Logged unit := (Ok tt, l).

Definition logger (lvl : Level) (msg : string) : Logged unit := emit [(lvl, msg)].

(** [try: body except Exception as e: handler e]. *)
Definition try_except {A} (body : Logged A) (handler : string -> Logged A) : Logged A :=
  match body with
  | (Ok a, l) => (Ok a, l)
  | (Raise e, l) => let '(r, l') := handler e in (r, l ++ l')
  end.

Notation "'let*' x ':=' c1 'in' c2" := (bind c1 (fun x => c2))
  (at level 10, x pattern, c1 at level 100, c2 at level 200).

(** [for x in xs: body], with the local variables the body updates threaded
    as [s]; an exception that leaves the body ends the loop. *)
Fixpoint for_each {X S} (xs : list X) (body : X -> S -> Logged S) (s : S) : Logged S :=
  match xs with
  | [] => ret s
  | x :: xs' => let* s' := body x s in for_each xs' body s'
  end.

Definition bytes : Type := list Byte.byte.


(** ** The object model of the spreadsheet library

    The classes of the library that the service touches, with the behaviour
    of the calls and assignments that the service makes on them: the
    assignment of a value to a cell, which checks a text and infers the type
    of the cell again; [has_style]; [iter_rows]; [merge_cells]; and the
    reader, which registers the merged ranges of a sheet with the same
    [merge_cells] steps.  The borders that the library redraws on the
    cells of a merged range (on the cells under the range from its top-left
    cell, on the top-left cell from the bottom-right one) are left out: a
    cell under a range is modelled without a style of its own, and the
    properties below that speak of the style of a cell on the encoded sheet
    do so for the cells outside the merged ranges. *)
Module Openpyxl.

Inductive SheetState := visible | hidden | veryHidden.

(** The Python classes of the values that are written as dates. *)
Inductive TimeType := py_datetime | py_date | py_time | py_timedelta.

(** The value of a cell, with the type that the library keeps next to it
    ([data_type]).  A formula cell ([data_only=False]) holds the text of
    its formula: [cell.value] is that text behind an equals sign.  A text
    cell, an error cell and a formula cell all give a Python [str]. *)
Inductive Value :=
  | VEmpty
  | VNumber (q : Qc)
  | VText (s : string)
  | VBool (b : bool)
  | VFormula (expression : string)
  | VError (code : string)
  | VDateTime (t : TimeType) (moment : Z).

(** The [str] that [cell.value] gives for a text, formula or error cell. *)
Definition text_of (v : Value) : option string :=
  match v with
  | VText s => Some s
  | VFormula expression => Some ("=" +:+ expression)
  | VError code => Some code
  | _ => None
  end.

Record Font := { font_name : string; font_size : Qc; font_bold : bool; font_color : string }.
Record Fill := { fill_pattern : string; fill_fg : string; fill_bg : string }.
Record Side := { side_style : string; side_color : string }.
Record Border :=
  { border_left : Side; border_right : Side; border_top : Side; border_bottom : Side }.
Record Alignment := { horizontal : string; vertical : string; wrap_text : bool }.

(** A cell: its value, whether it has a style record ([has_style]), and
    the five style attributes as the properties of the cell give them.  For
    a cell without a style record these are the defaults of its workbook,
    whatever they are. *)
Record Cell := {
  value : Value;
  has_style : bool;
  font : Font;
  fill : Fill;
  border : Border;
  alignment : Alignment;
  number_format : string
}.

(** The defaults of a workbook made by [Workbook()]. *)
Definition default_font : Font :=
  {| font_name := "Calibri"; font_size := Q2Qc 11%Q; font_bold := false; font_color := "" |}.
Definition default_fill : Fill := {| fill_pattern := ""; fill_fg := ""; fill_bg := "" |}.
Definition no_side : Side := {| side_style := ""; side_color := "" |}.
Definition default_border : Border :=
  {| border_left := no_side; border_right := no_side;
     border_top := no_side; border_bottom := no_side |}.
Definition default_alignment : Alignment :=
  {| horizontal := ""; vertical := ""; wrap_text := false |}.
Definition default_number_format : string := "General".

#[global] Instance TimeType_eq_dec : EqDecision TimeType.
Proof. solve_decision. Defined.
#[global] Instance Value_eq_dec : EqDecision Value.
Proof. solve_decision. Defined.
#[global] Instance Font_eq_dec : EqDecision Font.
Proof. solve_decision. Defined.
#[global] Instance Fill_eq_dec : EqDecision Fill.
Proof. solve_decision. Defined.
#[global] Instance Side_eq_dec : EqDecision Side.
Proof. solve_decision. Defined.
#[global] Instance Border_eq_dec : EqDecision Border.
Proof. solve_decision. Defined.
#[global] Instance Alignment_eq_dec : EqDecision Alignment.
Proof. solve_decision. Defined.
#[global] Instance Cell_eq_dec : EqDecision Cell.
Proof. solve_decision. Defined.

(** The cell that [ws.cell(row, column)] creates where none exists. *)
Definition new_cell : Cell :=
  {| value := VEmpty; has_style := false; font := default_font; fill := default_fill;
     border := default_border; alignment := default_alignment;
     number_format := default_number_format |}.

(** A cell of a new workbook keeps its style as indices into the tables of
    the workbook, where the defaults stand at index zero and equal entries
    share an index; [has_style] is true when some index is not zero. *)
Definition off_default (f : Font) (fl : Fill) (b : Border) (a : Alignment) (n : string) :
    bool :=
  negb (bool_decide (f = default_font /\ fl = default_fill /\ b = default_border
                     /\ a = default_alignment /\ n = default_number_format)).

Definition set_value (v : Value) (c : Cell) : Cell :=
  {| value := v; has_style := has_style c; font := font c; fill := fill c;
     border := border c; alignment := alignment c; number_format := number_format c |}.
Definition set_font (f : Font) (c : Cell) : Cell :=
  {| value := value c;
     has_style := off_default f (fill c) (border c) (alignment c) (number_format c);
     font := f; fill := fill c;
     border := border c; alignment := alignment c; number_format := number_format c |}.
Definition set_fill (f : Fill) (c : Cell) : Cell :=
  {| value := value c;
     has_style := off_default (font c) f (border c) (alignment c) (number_format c);
     font := font c; fill := f;
     border := border c; alignment := alignment c; number_format := number_format c |}.
Definition set_border (b : Border) (c : Cell) : Cell :=
  {| value := value c;
     has_style := off_default (font c) (fill c) b (alignment c) (number_format c);
     font := font c; fill := fill c;
     border := b; alignment := alignment c; number_format := number_format c |}.
Definition set_alignment (a : Alignment) (c : Cell) : Cell :=
  {| value := value c;
     has_style := off_default (font c) (fill c) (border c) a (number_format c);
     font := font c; fill := fill c;
     border := border c; alignment := a; number_format := number_format c |}.
Definition set_number_format (n : string) (c : Cell) : Cell :=
  {| value := value c;
     has_style := off_default (font c) (fill c) (border c) (alignment c) n;
     font := font c; fill := fill c;
     border := border c; alignment := alignment c; number_format := n |}.

(** The characters that a cell refuses ([ILLEGAL_CHARACTERS_RE]): the
    control characters other than tab, line feed and carriage return. *)
Definition illegal_character (a : ascii) : bool :=
  let n := nat_of_ascii a in
  (n <=? 8)%nat || ((11 <=? n)%nat && (n <=? 12)%nat) || ((14 <=? n)%nat && (n <=? 31)%nat).

(** [Cell.check_string]: a text is cut to 32767 characters, and refused
    when what is left holds a character that a cell refuses. *)
Definition check_string (value : string) : result string :=
  let value := Py.slice_to value 32767 in
  if existsb illegal_character (list_ascii_of_string value)
  then Raise (value +:+ " cannot be used in worksheets.")
  else Ok value.

Definition ERROR_CODES : list string :=
  ["#NULL!"; "#DIV/0!"; "#VALUE!"; "#REF!"; "#NAME?"; "#NUM!"; "#N/A"]%string.

(** The type that the assignment gives to a checked text: a text of more
    than one character that starts with an equals sign is a formula, an
    error code is an error, anything else is a text. *)
Definition infer (value : string) : Value :=
  match value with
  | String "="%char (String a expression) => VFormula (String a expression)
  | _ => if bool_decide (value ∈ ERROR_CODES) then VError value else VText value
  end.

(** [TIME_FORMATS]: the number format that the assignment of a date or
    time gives to a cell whose format is not a date format. *)
Definition TIME_FORMATS (t : TimeType) : string :=
  match t with
  | py_datetime => "yyyy-mm-dd h:mm:ss"
  | py_date => "yyyy-mm-dd"
  | py_time => "h:mm:ss"
  | py_timedelta => "[hh]:mm:ss"
  end.

Record ColumnDimension := { width : option Qc }.
Record RowDimension := { height : option Qc }.

(** A coordinate is (row, column), both counted from one; a range is its
    top-left and bottom-right corners. *)
Abbreviation Coordinate := (positive * positive)%type.
Abbreviation CellRange := (positive * positive * (positive * positive))%type.

(** A sheet in memory.  [cells] holds every cell object of the sheet, the
    merged cells under a merged range included. *)
Record Worksheet := {
  title : string;
  sheet_state : SheetState;
  column_dimensions : gmap string ColumnDimension;
  row_dimensions : gmap positive RowDimension;
  cells : gmap (positive * positive) Cell;
  merged_cells : gset (positive * positive * (positive * positive))
}.

Record Workbook := { worksheets : list Worksheet }.

#[global] Instance SheetState_eq_dec : EqDecision SheetState.
Proof. solve_decision. Defined.
#[global] Instance ColumnDimension_eq_dec : EqDecision ColumnDimension.
Proof. solve_decision. Defined.
#[global] Instance RowDimension_eq_dec : EqDecision RowDimension.
Proof. solve_decision. Defined.
#[global] Instance Worksheet_eq_dec : EqDecision Worksheet.
Proof. solve_decision. Defined.
#[global] Instance Workbook_eq_dec : EqDecision Workbook.
Proof. solve_decision. Defined.

Definition sheetnames (wb : Workbook) : list string := map title (worksheets wb).

(** [wb[key]]: the first sheet of that title, or a [KeyError]. *)
Definition getitem (wb : Workbook) (key : string) : result Worksheet :=
  match List.find (fun ws => String.eqb (title ws) key) (worksheets wb) with
  | Some ws => Ok ws
  | None => Raise ("'Worksheet " +:+ key +:+ " does not exist.'")
  end.

(** What a reader sees at a coordinate: an absent cell reads as empty. *)
Definition value_at (ws : Worksheet) (rc : positive * positive) : Value :=
  match cells ws !! rc with
  | Some c => value c
  | None => VEmpty
  end.

(** [Workbook()], [remove(active)] and [create_sheet(title)] leave a
    workbook whose only sheet is this one. *)
Definition create_sheet (t : string) : Worksheet :=
  {| title := t; sheet_state := visible; column_dimensions := ∅;
     row_dimensions := ∅; cells := ∅; merged_cells := ∅ |}.

Definition with_column_dimensions (d : gmap string ColumnDimension) (ws : Worksheet) :=
  {| title := title ws; sheet_state := sheet_state ws; column_dimensions := d;
     row_dimensions := row_dimensions ws; cells := cells ws;
     merged_cells := merged_cells ws |}.
Definition with_row_dimensions (d : gmap positive RowDimension) (ws : Worksheet) :=
  {| title := title ws; sheet_state := sheet_state ws;
     column_dimensions := column_dimensions ws; row_dimensions := d;
     cells := cells ws; merged_cells := merged_cells ws |}.
Definition with_cells (d : gmap (positive * positive) Cell) (ws : Worksheet) :=
  {| title := title ws; sheet_state := sheet_state ws;
     column_dimensions := column_dimensions ws;
     row_dimensions := row_dimensions ws; cells := d;
     merged_cells := merged_cells ws |}.
Definition with_merged_cells (d : gset (positive * positive * (positive * positive)))
    (ws : Worksheet) :=
  {| title := title ws; sheet_state := sheet_state ws;
     column_dimensions := column_dimensions ws;
     row_dimensions := row_dimensions ws; cells := cells ws; merged_cells := d |}.

(** [ws.cell(row, column)], the cell: the one that is there, or a new
    one. *)
Definition get_cell (ws : Worksheet) (rc : Coordinate) : Cell :=
  default new_cell (cells ws !! rc).

(** [ws.max_row] and [ws.max_column]: the largest row and column that
    hold a cell, one when there is none. *)
Definition max_row (ws : Worksheet) : positive :=
  foldr Pos.max 1%positive ((fun entry => fst (fst entry)) <$> map_to_list (cells ws)).
Definition max_column (ws : Worksheet) : positive :=
  foldr Pos.max 1%positive ((fun entry => snd (fst entry)) <$> map_to_list (cells ws)).

(** [range(first, last + 1)]. *)
Definition pos_range (first last : positive) : list positive :=
  Pos.of_nat <$> seq (Pos.to_nat first) (S (Pos.to_nat last) - Pos.to_nat first).

(** [ws.iter_rows()]: nothing for a sheet without cells; otherwise row by
    row the rectangle from the first row and column to the last ones that
    hold a cell, with [ws.cell] at every coordinate. *)
Definition iter_rows (ws : Worksheet) : list (list (Coordinate * Cell)) :=
  if decide (cells ws = ∅) then []
  else
    (fun row =>
       (fun column => ((row, column), get_cell ws (row, column)))
         <$> pos_range 1 (max_column ws))
      <$> pos_range 1 (max_row ws).

(** The coordinates of a range, row by row ([CellRange.cells]). *)
Definition range_coordinates (r : CellRange) : list Coordinate :=
  row ← pos_range (fst (fst r)) (fst (snd r));
  (fun column => (row, column)) <$> pos_range (snd (fst r)) (snd (snd r)).

(** The coordinates that a merged range covers: all but the first one,
    its top-left corner. *)
Definition covered (r : CellRange) : list Coordinate := tail (range_coordinates r).

(** The merged cell that stands under a merged range. *)
Definition merged_cell : Cell := new_cell.

(** [ws.merge_cells(str(r))]: the top-left cell is created when it is not
    there, the range is registered, and every other cell under the range
    is replaced by a merged cell, which holds no value. *)
Definition merge_cells (r : positive * positive * (positive * positive))
    (ws : Worksheet) : Worksheet :=
  let top_left := fst r in
  let ws := with_cells (<[top_left := get_cell ws top_left]> (cells ws)) ws in
  let ws := with_merged_cells ({[ r ]} ∪ merged_cells ws) ws in
  with_cells (foldr (fun rc cs => <[rc := merged_cell]> cs) (cells ws) (covered r)) ws.

(** What the reader does with the merged ranges that it finds in a sheet,
    once the cells are bound: it registers each of them as [merge_cells]
    does. *)
Definition bind_merged_cells (ws : Worksheet) : Worksheet :=
  set_fold merge_cells (with_merged_cells ∅ ws) (merged_cells ws).

(** The calls of the library that the model does not look into: the parser
    and the encoder of the container, the read-only loader, which only
    matters by whether it raises, the test of a number format for a date
    format, and the copies of the style objects. *)
Class Library := {
  read_container : bytes -> result Workbook;
  load_workbook_read_only : bytes -> result unit;
  save : Workbook -> result bytes;
  is_date_format : string -> bool;
  font_copy : Font -> result Font;
  fill_copy : Fill -> result Fill;
  border_copy : Border -> result Border;
  alignment_copy : Alignment -> result Alignment;
  number_format_assign : string -> result string
}.

(** [load_workbook(buffer, read_only=False, ...)]: the sheets that the
    parser finds, with their merged ranges registered. *)
Definition load_workbook `{Library} (file_bytes : bytes) : result Workbook :=
  match read_container file_bytes with
  | Ok wb => Ok {| worksheets := bind_merged_cells <$> worksheets wb |}
  | Raise e => Raise e
  end.

(** [cell.value = v] ([Cell._bind_value]).  A date or time gives the cell
    the number format of its class unless the cell has a date format
    already; a [str] is checked, which can raise, and its type is inferred
    from the text. *)
Definition bind_value `{Library} (v : Value) (c : Cell) : result Cell :=
  match v with
  | VDateTime t _ =>
      Ok (set_value v
            (if is_date_format (number_format c) then c
             else set_number_format (TIME_FORMATS t) c))
  | _ =>
      match text_of v with
      | Some s =>
          match check_string s with
          | Ok s => Ok (set_value (infer s) c)
          | Raise e => Raise e
          end
      | None => Ok (set_value v c)
      end
  end.

End Openpyxl.
Import Openpyxl.

(** ** The splitting function *)
Section Service.
Context {cfg : Config} {lib : Library}.

(** Truth value of an optional number: [None] and zero are false. *)
Definition truthy (x : option Qc) : bool :=
  match x with
  | Some q => negb (bool_decide (q = Q2Qc 0))
  | None => false
  end.

(** Lines 165-168: the explicit column widths. *)
Definition copy_column_widths (source_ws target_ws : Worksheet) : Worksheet :=
  map_fold
    (fun col_letter col_dim target_ws =>
       if truthy (width col_dim) then
         with_column_dimensions
           (<[col_letter := {| width := width col_dim |}]> (column_dimensions target_ws))
           target_ws
       else target_ws)
    target_ws (column_dimensions source_ws).

(** Lines 170-173: the explicit row heights. *)
Definition copy_row_heights (source_ws target_ws : Worksheet) : Worksheet :=
  map_fold
    (fun row_num row_dim target_ws =>
       if truthy (height row_dim) then
         with_row_dimensions
           (<[row_num := {| height := height row_dim |}]> (row_dimensions target_ws))
           target_ws
       else target_ws)
    target_ws (row_dimensions source_ws).

(** One assignment [target_cell.attr = <library call>] inside the [try]
    block of the style copy, followed by the rest [k] of the block: when
    the call raises, the target cell keeps what was assigned before and
    the rest of the block is skipped. *)
Definition assign {A} (r : result A) (set : A -> Cell -> Cell)
    (k : Cell -> result unit * Cell) (target_cell : Cell) : result unit * Cell :=
  match r with
  | Ok a => k (set a target_cell)
  | Raise e => (Raise e, target_cell)
  end.

(** Lines 186-190: the body of the [try] block. *)
Definition copy_style_attributes (cell : Cell) : Cell -> result unit * Cell :=
  assign (font_copy (font cell)) set_font
    (assign (fill_copy (fill cell)) set_fill
       (assign (border_copy (border cell)) set_border
          (assign (alignment_copy (alignment cell)) set_alignment
             (assign (number_format_assign (number_format cell)) set_number_format
                (fun target_cell => (Ok tt, target_cell)))))).

(** Lines 180-192: the value, whose assignment can raise, then the style
    under its handler. *)
Definition copy_cell (cell target_cell : Cell) : Logged Cell :=
  let* target_cell := call (bind_value (value cell) target_cell) in
  if has_style cell then
    match copy_style_attributes cell target_cell with
    | (Ok _, target_cell) => ret target_cell
    | (Raise e, target_cell) =>
        let* _ := logger DEBUG ("Could not copy cell style: " +:+ e) in
        ret target_cell
    end
  else ret target_cell.

(** A loop whose body works on an object in place: when a round raises,
    the object is left as the rounds before it and that round made it. *)
Fixpoint for_each_on {X S} (xs : list X) (body : X -> S -> S * Logged unit) (s : S) :
    S * Logged unit :=
  match xs with
  | [] => (s, ret tt)
  | x :: xs' =>
      match body x s with
      | (s, (Ok _, l)) =>
          let '(s, (r, l')) := for_each_on xs' body s in (s, (r, l ++ l'))
      | (s, (Raise e, l)) => (s, (Raise e, l))
      end
  end.

(** Lines 178-192: one source cell.  [target_ws.cell] creates the target
    cell before the value is assigned. *)
Definition copy_into (entry : Coordinate * Cell) (target_ws : Worksheet) :
    Worksheet * Logged unit :=
  let '(rc, cell) := entry in
  let target_cell := get_cell target_ws rc in
  let target_ws := with_cells (<[rc := target_cell]> (cells target_ws)) target_ws in
  match copy_cell cell target_cell with
  | (Ok target_cell, l) =>
      (with_cells (<[rc := target_cell]> (cells target_ws)) target_ws, (Ok tt, l))
  | (Raise e, l) => (target_ws, (Raise e, l))
  end.

(** Lines 176-192: every cell of every row of the source. *)
Definition copy_cells (source_ws target_ws : Worksheet) : Worksheet * Logged unit :=
  for_each_on (iter_rows source_ws) (fun row => for_each_on row copy_into) target_ws.

(** Lines 194-196: the merged ranges. *)
Definition copy_merged_cells (source_ws target_ws : Worksheet) : Worksheet :=
  set_fold merge_cells target_ws (merged_cells source_ws).

(** Lines 158-196: the sheet of the new workbook, as these lines leave it,
    and whether they raised. *)
Definition copy_sheet (source_ws : Worksheet) (sheet_name : string) :
    Worksheet * Logged unit :=
  let target_ws := create_sheet sheet_name in
  let target_ws := copy_column_widths source_ws target_ws in
  let target_ws := copy_row_heights source_ws target_ws in
  match copy_cells source_ws target_ws with
  | (target_ws, (Ok _, l)) => (copy_merged_cells source_ws target_ws, (Ok tt, l))
  | (target_ws, (Raise e, l)) => (target_ws, (Raise e, l))
  end.

Definition output_filename (base_name sheet_name : string) : string :=
  base_name +:+ "_" +:+ sanitize_filename sheet_name +:+ ".xlsx".

(** Lines 156-201: the sheet of that name rebuilt as a workbook of its own
    and encoded. *)
Definition extract (source_wb : Workbook) (sheet_name : string) : Logged bytes :=
  let* source_ws := call (getitem source_wb sheet_name) in
  let '(target_ws, built) := copy_sheet source_ws sheet_name in
  let* _ := built in
  call (save {| worksheets := [target_ws] |}).

(** Lines 155-208: the body of the per-sheet [try] block, with the
    dictionary [split_files] it updates.  The entry is written after the
    last call that can raise, so a sheet that raises leaves the dictionary
    as it found it. *)
Definition process_sheet (source_wb : Workbook) (base_name sheet_name : string)
    (split_files : gmap string bytes) : Logged (gmap string bytes) :=
  let* _ := logger INFO ("Processing sheet: " +:+ sheet_name) in
  let* output := extract source_wb sheet_name in
  let split_files := <[output_filename base_name sheet_name := output]> split_files in
  let* _ := logger INFO ("Successfully processed sheet: " +:+ sheet_name) in
  ret split_files.

(** Lines 153-213: one round of the loop over the visible sheets. *)
Definition process_sheet_guarded (source_wb : Workbook) (base_name sheet_name : string)
    (split_files : gmap string bytes) : Logged (gmap string bytes) :=
  try_except (process_sheet source_wb base_name sheet_name split_files)
    (fun e =>
       let* _ := logger ERROR
                   ("Error processing sheet '" +:+ sheet_name +:+ "': " +:+ e) in
       ret split_files).

(** Lines 142-146: one round of the loop that sorts the sheet names. *)
Definition select_step (source_wb : Workbook) (sheet_name : string)
    (lists : list string * list string) : Logged (list string * list string) :=
  let '(visible_sheets, hidden_sheets) := lists in
  let* sheet := call (getitem source_wb sheet_name) in
  if decide (sheet_state sheet = visible)
  then ret (visible_sheets ++ [sheet_name], hidden_sheets)
  else ret (visible_sheets, hidden_sheets ++ [sheet_name]).

(** Lines 139-146: the visible and the hidden sheet names, in order. *)
Definition select (source_wb : Workbook) : Logged (list string * list string) :=
  for_each (sheetnames source_wb) (select_step source_wb) ([], []).

Definition too_many_sheets (n : nat) : string :=
  "File contains too many sheets (" +:+ Py.str_of_nat n
    +:+ "). Maximum allowed: " +:+ Py.str_of_Z MAX_SHEETS.

Definition no_sheets_processed : string := "No sheets could be processed successfully".

(** The function as the module defines it, without the timing decorator
    (which adds one record with the elapsed wall-clock time and passes the
    result on). *)
Definition split_excel_by_sheets_simple (file_bytes : bytes) (original_filename : string) :
    Logged (gmap string bytes * option string) :=
  let split_files : gmap string bytes := ∅ in
  let base_name := fst (Py.splitext original_filename) in
  try_except
    (let* source_wb := call (load_workbook file_bytes) in
     if MAX_SHEETS <? Z.of_nat (length (sheetnames source_wb)) then
       ret (∅, Some (too_many_sheets (length (sheetnames source_wb))))
     else
       let* (visible_sheets, hidden_sheets) := select source_wb in
       let* _ := logger INFO
                   ("Processing " +:+ Py.str_of_nat (length visible_sheets)
                      +:+ " visible sheets from " +:+ original_filename) in
       let* _ := match hidden_sheets with
                 | [] => ret tt
                 | _ => logger INFO
                          ("Skipping " +:+ Py.str_of_nat (length hidden_sheets)
                             +:+ " hidden sheets: " +:+ Py.join ", " hidden_sheets)
                 end in
       let* split_files :=
         for_each visible_sheets (process_sheet_guarded source_wb base_name) split_files in
       if decide (split_files = ∅) then ret (∅, Some no_sheets_processed)
       else ret (split_files, None))
    (fun e =>
       let* _ := logger ERROR ("Error splitting Excel file: " +:+ e) in
       ret (∅, Some ("Error processing Excel file: " +:+ e))).

(** Lines 85-101: the validation loads the bytes read-only and keeps
    nothing of what it loaded. *)
Definition validate_excel_file (file_bytes : bytes) : Logged (bool * option string) :=
  try_except
    (let* _ := call (load_workbook_read_only file_bytes) in ret (true, None))
    (fun e =>
       let* _ := logger WARNING ("Excel validation failed: " +:+ e) in
       ret (false, Some ("Invalid Excel file: " +:+ e))).

End Service.

(** ** The vocabulary of the properties *)
Section Vocabulary.
Context {cfg : Config} {lib : Library}.

(** The sheet that [wb[n]] resolves to is visible. *)
Definition visible_name (wb : Workbook) (n : string) : bool :=
  match getitem wb n with
  | Ok ws => bool_decide (sheet_state ws = visible)
  | Raise _ => false
  end.

Definition visible_sheets (wb : Workbook) : list string :=
  List.filter (visible_name wb) (sheetnames wb).

Definition hidden_sheets (wb : Workbook) : list string :=
  List.filter (fun n => negb (visible_name wb n)) (sheetnames wb).

(** The dictionary after one round of the loop. *)
Definition step (wb : Workbook) (base_name : string) (files : gmap string bytes)
    (n : string) : gmap string bytes :=
  match fst (extract wb n) with
  | Ok b => <[output_filename base_name n := b]> files
  | Raise _ => files
  end.

(** The sheet of that name is extracted without an exception. *)
Definition extracted (wb : Workbook) (n : string) : bool :=
  match fst (extract wb n) with
  | Ok _ => true
  | Raise _ => false
  end.

(** The sheet of the new workbook when the cell loop has run (line 192),
    before the merged ranges are registered. *)
Definition cells_copied (source_ws : Worksheet) (sheet_name : string) : Worksheet :=
  fst (copy_cells source_ws
         (copy_row_heights source_ws
            (copy_column_widths source_ws (create_sheet sheet_name)))).







(** Two sheets that a reader cannot tell apart by title, values or merged
    ranges. *)
Definition same_content (a b : Worksheet) : Prop :=
  title a = title b /\ (forall rc, value_at a rc = value_at b rc)
  /\ merged_cells a = merged_cells b.

(** The decoder reads back what the encoder wrote. *)
Definition faithful_codec : Prop :=
  forall w blob, save w = Ok blob ->
    exists w', load_workbook blob = Ok w'
               /\ Forall2 same_content (worksheets w) (worksheets w').

Definition sheet_error (n e : string) : LogRecord :=
  (ERROR, "Error processing sheet '" +:+ n +:+ "': " +:+ e).

Definition selection_log (original_filename : string) (wb : Workbook) : list LogRecord :=
  (INFO, "Processing " +:+ Py.str_of_nat (length (visible_sheets wb))
           +:+ " visible sheets from " +:+ original_filename)
  :: match hidden_sheets wb with
     | [] => []
     | _ => [(INFO, "Skipping " +:+ Py.str_of_nat (length (hidden_sheets wb))
                      +:+ " hidden sheets: " +:+ Py.join ", " (hidden_sheets wb))]
     end.

Definition loop_log (wb : Workbook) (names : list string) : list LogRecord :=
  snd (for_each names (process_sheet_guarded wb "") ∅).

End Vocabulary.

(** ** Sample workbooks and libraries

    Concrete inputs on which the theorems below are exercised. *)
Module Sample.

Definition ceiling (n : Z) : Config := {| MAX_SHEETS := n |}.

(** A cell without a style record. *)
Definition plain (v : Value) : Cell := set_value v new_cell.

(** A sheet as the loader leaves it: the cells listed, and the merged
    ranges registered. *)
Definition sheet (t : string) (st : SheetState)
    (cs : list (positive * positive * Cell))
    (ms : list (positive * positive * (positive * positive))) : Worksheet :=
  bind_merged_cells
    {| title := t; sheet_state := st; column_dimensions := ∅; row_dimensions := ∅;
       cells := list_to_map cs; merged_cells := list_to_set ms |}.

Definition encode_title (w : Workbook) : bytes :=
  match worksheets w with
  | ws :: _ => list_byte_of_string (title ws)
  | [] => []
  end.

(** The formats of the samples that hold one of the letters of a date
    format are the date formats among them. *)
Definition date_letters (fmt : string) : bool :=
  existsb (fun a => Py.char_in a "dmhysDMHYS") (list_ascii_of_string fmt).

(** A library whose parser answers [wb] and whose encoder refuses the
    sheets named in [unsavable]; the style copies never fail. *)
Definition library (wb : Workbook) (unsavable : list string) : Library :=
  {| read_container := fun _ => Ok wb;
     load_workbook_read_only := fun _ => Ok tt;
     save := fun w =>
       if existsb (fun ws => existsb (String.eqb (title ws)) unsavable) (worksheets w)
       then Raise "cannot serialize"
       else Ok (encode_title w);
     is_date_format := date_letters;
     font_copy := Ok; fill_copy := Ok; border_copy := Ok; alignment_copy := Ok;
     number_format_assign := Ok |}.

Definition summary : Worksheet :=
  sheet "Summary" visible
    [ ((1, 1)%positive, plain (VText "total"));
      ((2, 2)%positive, plain (VFormula "A1+B1")) ]
    [ ((2, 2), (4, 4))%positive ].

(** One visible and one hidden sheet. *)
Definition report : Workbook :=
  {| worksheets :=
       [ summary;
         sheet "RawData" hidden [ ((1, 1)%positive, plain (VNumber (Q2Qc 7))) ] [] ] |}.

(** No visible sheet. *)
Definition all_hidden : Workbook :=
  {| worksheets :=
       [ sheet "RawData" hidden [ ((1, 1)%positive, plain (VNumber (Q2Qc 7))) ] [];
         sheet "Notes" veryHidden [] [] ] |}.


(** Two visible sheets whose names differ in a character that the
    sanitization replaces, and a hidden one. *)
Definition twins : Workbook :=
  {| worksheets :=
       [ sheet "a<" visible [ ((1, 1)%positive, plain (VText "first")) ] [];
         sheet "a>" visible [ ((1, 1)%positive, plain (VText "second")) ] [];
         sheet "h" hidden [] [] ] |}.

(** The same two visible sheets, and a hidden one whose name sanitizes as
    theirs do. *)
Definition masked : Workbook :=
  {| worksheets :=
       [ sheet "a<" visible [ ((1, 1)%positive, plain (VText "first")) ] [];
         sheet "a>" visible [ ((1, 1)%positive, plain (VText "second")) ] [];
         sheet "a|" hidden [ ((1, 1)%positive, plain (VText "third")) ] [] ] |}.

(** Two visible sheets around a hidden one. *)
Definition mixed : Workbook :=
  {| worksheets :=
       [ sheet "Q1" visible [ ((1, 1)%positive, plain (VText "a")) ] [];
         sheet "Archive" hidden [ ((1, 1)%positive, plain (VText "b")) ] [];
         sheet "Q2" visible [ ((1, 1)%positive, plain (VText "c")) ] [] ] |}.

(** A library that cannot copy fills, and whose parser refuses the bytes
    that its read-only loader lets through. *)
Definition fill_raises : Library :=
  {| read_container := fun _ => Raise "not a container";
     load_workbook_read_only := fun _ => Ok tt;
     save := fun w => Ok (encode_title w);
     is_date_format := date_letters;
     font_copy := Ok;
     fill_copy := fun _ => Raise "unsupported fill";
     border_copy := Ok; alignment_copy := Ok; number_format_assign := Ok |}.

(** A library whose read-only loader refuses every upload. *)
Definition not_a_zip : Library :=
  {| read_container := fun _ => Ok report;
     load_workbook_read_only := fun _ => Raise "File is not a zip file";
     save := fun w => Ok (encode_title w);
     is_date_format := date_letters;
     font_copy := Ok; fill_copy := Ok; border_copy := Ok; alignment_copy := Ok;
     number_format_assign := Ok |}.

Definition thin : Side := {| side_style := "thin"; side_color := "FF000000" |}.

(** A cell with a bold font, a solid fill, a border and a number format. *)
Definition styled : Cell :=
  {| value := VNumber (Q2Qc 7);
     has_style := true;
     font := {| font_name := "Calibri"; font_size := Q2Qc 11%Q; font_bold := true;
                font_color := "" |};
     fill := {| fill_pattern := "solid"; fill_fg := "FFFF0000"; fill_bg := "" |};
     border := {| border_left := thin; border_right := thin;
                  border_top := thin; border_bottom := thin |};
     alignment := default_alignment;
     number_format := "0.00" |}.





(** A cell without a style record in a workbook whose default font is
    Arial. *)
Definition arial : Cell :=
  {| value := VText "plain";
     has_style := false;
     font := {| font_name := "Arial"; font_size := Q2Qc 10%Q; font_bold := false;
                font_color := "" |};
     fill := default_fill; border := default_border; alignment := default_alignment;
     number_format := default_number_format |}.

(** A sheet with a text that starts with an equals sign. *)
Definition arial_sheet : Worksheet :=
  sheet "Arial" visible [ ((1, 1)%positive, arial) ] [].

Definition notes : Worksheet :=
  sheet "Notes" visible [ ((1, 1)%positive, plain (VText "=1+1")) ] [].

Definition notebook : Workbook := {| worksheets := [notes] |}.

(** A codec of one word: the encoder accepts the rebuilt sheet of the
    notes alone, and the decoder reads it back. *)
Definition rebuilt : Workbook :=
  {| worksheets := [fst (@copy_sheet (library notebook []) notes "Notes")] |}.

Definition archive : Library :=
  {| read_container := fun b =>
       match b with
       | [Byte.x50; Byte.x4b] => Ok rebuilt
       | _ => Ok notebook
       end;
     load_workbook_read_only := fun _ => Ok tt;
     save := fun w =>
       if decide (w = rebuilt) then Ok [Byte.x50; Byte.x4b]
       else Raise "cannot serialize";
     is_date_format := date_letters;
     font_copy := Ok; fill_copy := Ok; border_copy := Ok; alignment_copy := Ok;
     number_format_assign := Ok |}.

(** A formula of 32767 characters: with its equals sign, one more than a
    cell takes. *)
Fixpoint ones (n : nat) : string :=
  match n with
  | O => EmptyString
  | S n' => String "1" (ones n')
  end.

Definition long_expression : string := ones (Z.to_nat 32767).

Definition long_sheet : Worksheet :=
  sheet "Long" visible [ ((1, 1)%positive, plain (VFormula long_expression)) ] [].

Definition ledger : Workbook := {| worksheets := [long_sheet] |}.

End Sample.

(** ** The upload endpoint

    The request is modelled by what [request.files] gives: the framework
    refuses a body above the size limit when the form is read
    ([RequestEntityTooLarge]), any other failure of the read is an
    exception, and otherwise the form holds a file under the key [file] or
    not.  A response is its body and its status code.  The logger calls of
    the endpoint are left out: one of them prints the size of the upload as
    a float. *)
Module Flask.

Record FileStorage := { filename : string; read : result bytes }.

Inductive RequestFiles :=
  | EntityTooLarge
  | Unreadable (e : string)
  | Files (file : option FileStorage).

(** What [send_file] sends: the bytes of one workbook, or a zip archive with
    one member per entry of the dictionary. *)
Inductive Payload :=
  | WorkbookBytes (b : bytes)
  | ZipArchive (members : gmap string bytes).

Inductive Body :=
  | Json (error : option string)
  | Attachment (download_name mimetype : string) (payload : Payload).

Definition Response : Type := Body * Z.

End Flask.
Import Flask.

Section Endpoint.
Context {cfg : Config} {lib : Library}.

(** The two texts that the host builds outside the model: the size limit
    printed with one decimal, and the accepted extensions joined in the
    iteration order of a Python set. *)
Variables (size_limit_text allowed_listing : string).

Definition xlsx_mimetype : string :=
  "application/vnd.openxmlformats-officedocument.spreadsheetml.sheet".

(** Lines 225-249. *)
Definition create_zip_response (files_dict : gmap string bytes) (base_filename : string) :
    Response :=
  (Attachment (base_filename +:+ "_split.zip") "application/zip" (ZipArchive files_dict),
   200).

(** Truth value of an optional message: [None] and the empty text are
    false. *)
Definition truthy_message (m : option string) : bool :=
  match m with
  | Some e => negb (String.eqb e EmptyString)
  | None => false
  end.

(** The handler of [except Exception] of the endpoint (lines 369-371). *)
Definition unexpected_error : Response :=
  (Json (Some "An unexpected error occurred"%string), 500).

(** Lines 290-371. *)
Definition split_excel (request_files : RequestFiles) : Response :=
  match request_files with
  | EntityTooLarge =>
      (Json (Some ("File too large. Maximum size: " +:+ size_limit_text +:+ " MB")), 413)
  | Unreadable _ => unexpected_error
  | Files None => (Json (Some "No file provided"%string), 400)
  | Files (Some file) =>
      if String.eqb (filename file) EmptyString
      then (Json (Some "No file selected"%string), 400)
      else if negb (allowed_file (filename file))
      then (Json (Some ("Invalid file type. Allowed types: " +:+ allowed_listing)), 400)
      else
        match read file with
        | Raise _ => unexpected_error
        | Ok file_bytes =>
            match fst (validate_excel_file file_bytes) with
            | Raise _ => unexpected_error
            | Ok (is_valid, error_msg) =>
                if negb is_valid then (Json error_msg, 400)
                else
                  match fst (split_excel_by_sheets_simple file_bytes (filename file)) with
                  | Raise _ => unexpected_error
                  | Ok (split_files, error) =>
                      if truthy_message error then (Json error, 500)
                      else if decide (split_files = ∅)
                      then (Json (Some "No sheets found in Excel file"%string), 400)
                      else
                        let base_name := fst (Py.splitext (filename file)) in
                        match map_to_list split_files with
                        | [(filename, file_bytes)] =>
                            (Attachment filename xlsx_mimetype (WorkbookBytes file_bytes),
                             200)
                        | _ => create_zip_response split_files base_name
                        end
                  end
            end
        end
  end.

End Endpoint.

(** Sample uploads. *)
Module Upload.

Definition named (name : string) : RequestFiles :=
  Files (Some {| filename := name; read := Ok [] |}).

(** A sheet with explicit, absent and zero sizes. *)
Definition sized : Worksheet :=
  {| title := "Sized"; sheet_state := hidden;
     column_dimensions :=
       {[ "A"%string := {| width := Some (Q2Qc 12) |};
          "B"%string := {| width := None |};
          "C"%string := {| width := Some (Q2Qc 0) |} ]};
     row_dimensions := {[ 1%positive := {| height := Some (Q2Qc 30) |};
                          2%positive := {| height := None |} ]};
     cells := {[ (1, 1)%positive := Sample.plain (VText "x"); (1, 2)%positive := Sample.styled ]};
     merged_cells := ∅ |}.

End Upload.


(** ** Strings *)
Section Strings.

Lemma append_nil_l (y : string) : EmptyString +:+ y = y.
Proof. reflexivity. Qed.

Lemma append_cons (a : ascii) (x y : string) : String a x +:+ y = String a (x +:+ y).
Proof. reflexivity. Qed.

Lemma append_nil_r (x : string) : x +:+ EmptyString = x.
Proof. induction x as [|a x IH]; [done | by rewrite append_cons, IH]. Qed.

Lemma append_assoc (x y z : string) : (x +:+ y) +:+ z = x +:+ (y +:+ z).
Proof. induction x as [|a x IH]; [done | by rewrite !append_cons, IH]. Qed.

Lemma chars_append (x y : string) :
  list_ascii_of_string (x +:+ y) = list_ascii_of_string x ++ list_ascii_of_string y.
Proof. induction x as [|a x IH]; [done | rewrite append_cons; simpl; by rewrite IH]. Qed.

Lemma chars_length (s : string) : length (list_ascii_of_string s) = String.length s.
Proof. induction s as [|a s IH]; simpl; [done | by rewrite IH]. Qed.

Lemma chars_substring (n m : nat) (s : string) (c : ascii) :
  c ∈ list_ascii_of_string (String.substring n m s) -> c ∈ list_ascii_of_string s.
Proof.
  revert n m. induction s as [|a s IH]; intros [|n] [|m]; simpl;
    try (by intros ?%elem_of_nil).
  - intros [->|H]%elem_of_cons; [by left | right; by apply (IH 0%nat m)].
  - intros H. right. by apply (IH n 0%nat).
  - intros H. right. by apply (IH n (S m)).
Qed.

Lemma substring_length (n m : nat) (s : string) :
  String.length (String.substring n m s) = Nat.min m (String.length s - n).
Proof.
  revert n m. induction s as [|a s IH]; intros [|n] [|m];
    cbn [String.substring String.length]; rewrite ?IH; lia.
Qed.

Lemma substring_all (s : string) : String.substring 0 (String.length s) s = s.
Proof. induction s as [|a s IH]; simpl; [done | by rewrite IH]. Qed.

Lemma substring_split (k : nat) (s : string) :
  (k <= String.length s)%nat ->
  String.substring 0 k s +:+ String.substring k (String.length s - k) s = s.
Proof.
  revert k. induction s as [|a s IH]; intros [|k] Hk; simpl in *; try done; try lia.
  - by rewrite append_nil_l, substring_all.
  - rewrite append_cons, IH by lia. done.
Qed.

Lemma substring_skip (x y : string) (m : nat) :
  String.substring (String.length x) m (x +:+ y) = String.substring 0 m y.
Proof. induction x as [|a x IH]; [done | rewrite append_cons; simpl; apply IH]. Qed.

Lemma chars_lstrip (cs s : string) (c : ascii) :
  c ∈ list_ascii_of_string (Py.lstrip cs s) -> c ∈ list_ascii_of_string s.
Proof.
  induction s as [|a s IH]; simpl; [done|].
  destruct (Py.char_in a cs); [|done]. intros H. right. by apply IH.
Qed.

Lemma chars_rstrip (cs s : string) (c : ascii) :
  c ∈ list_ascii_of_string (Py.rstrip cs s) -> c ∈ list_ascii_of_string s.
Proof.
  induction s as [|a s IH]; simpl; [done|].
  destruct (Py.rstrip cs s) as [|b r] eqn:Hr.
  - destruct (Py.char_in a cs); simpl; [by intros ?%elem_of_nil|].
    intros [->|H]%elem_of_cons; [by left | by apply elem_of_nil in H].
  - simpl. intros [->|H]%elem_of_cons; [by left | right; by apply IH].
Qed.

Lemma lstrip_length (cs s : string) :
  (String.length (Py.lstrip cs s) <= String.length s)%nat.
Proof. induction s as [|a s IH]; simpl; [done|]. destruct (Py.char_in a cs); simpl; lia. Qed.

Lemma rstrip_length (cs s : string) :
  (String.length (Py.rstrip cs s) <= String.length s)%nat.
Proof.
  induction s as [|a s IH]; simpl; [done|].
  destruct (Py.rstrip cs s); [destruct (Py.char_in a cs)|]; simpl in *; lia.
Qed.

Lemma strip_length (cs s : string) :
  (String.length (Py.strip cs s) <= String.length s)%nat.
Proof.
  unfold Py.strip. etrans; [apply rstrip_length | apply lstrip_length].
Qed.

Lemma lstrip_idem (cs s : string) : Py.lstrip cs (Py.lstrip cs s) = Py.lstrip cs s.
Proof.
  induction s as [|a s IH]; simpl; [done|].
  destruct (Py.char_in a cs) eqn:Ha; [done|]. simpl. by rewrite Ha.
Qed.

Lemma rstrip_idem (cs s : string) : Py.rstrip cs (Py.rstrip cs s) = Py.rstrip cs s.
Proof.
  induction s as [|a s IH]; simpl; [done|].
  destruct (Py.rstrip cs s) as [|b r] eqn:Hr.
  - destruct (Py.char_in a cs) eqn:Ha; simpl; [done | by rewrite Ha].
  - change (Py.rstrip cs (String a (String b r))) with
      (match Py.rstrip cs (String b r) with
       | EmptyString => if Py.char_in a cs then EmptyString else String a EmptyString
       | r' => String a r'
       end).
    by rewrite IH.
Qed.

(** Stripping on the right keeps a left end that needs no stripping. *)
Lemma lstrip_rstrip (cs s : string) :
  Py.lstrip cs s = s -> Py.lstrip cs (Py.rstrip cs s) = Py.rstrip cs s.
Proof.
  destruct s as [|a s]; [done|]. simpl.
  destruct (Py.char_in a cs) eqn:Ha.
  - intros H. pose proof (lstrip_length cs s) as Hl. rewrite H in Hl. simpl in Hl. lia.
  - intros _. destruct (Py.rstrip cs s); simpl; by rewrite Ha.
Qed.

Lemma strip_idem (cs s : string) : Py.strip cs (Py.strip cs s) = Py.strip cs s.
Proof.
  unfold Py.strip. rewrite (lstrip_rstrip cs (Py.lstrip cs s)) by apply lstrip_idem.
  apply rstrip_idem.
Qed.

End Strings.


(** ** What the library calls do *)
Section LibraryFacts.
Context {lib : Library}.

Lemma slice_to_all (s : string) (k : Z) : Py.len s <= k -> Py.slice_to s k = s.
Proof.
  unfold Py.slice_to, Py.len. intros H.
  destruct (Z.ltb_spec k 0); [lia|].
  rewrite Z.min_r by lia. rewrite Nat2Z.id. apply substring_all.
Qed.

(** A text that fits a cell and passes the check is kept as it is. *)
Lemma check_string_fits (s s' : string) :
  Py.len s <= 32767 -> check_string s = Ok s' -> s' = s.
Proof.
  intros Hlen. unfold check_string. rewrite (slice_to_all s 32767 Hlen).
  destruct (existsb _ _); [discriminate|]. by intros [= <-].
Qed.

Lemma check_string_cut (s s' : string) :
  check_string s = Ok s' -> s' = Py.slice_to s 32767.
Proof.
  unfold check_string. destruct (existsb _ _); [discriminate|]. by intros [= <-].
Qed.

(** Whatever type is inferred, the cell gives back the text it was given. *)
Lemma text_of_infer (s : string) : text_of (infer s) = Some s.
Proof.
  unfold infer. destruct s as [|a s'].
  - by destruct (bool_decide _).
  - destruct a as [[] [] [] [] [] [] [] []];
      try (by destruct (bool_decide _)).
    destruct s'; [by destruct (bool_decide _) | reflexivity].
Qed.

Lemma infer_formula (a : ascii) (expression : string) :
  infer ("=" +:+ String a expression) = VFormula (String a expression).
Proof. reflexivity. Qed.

(** The assignment of a value leaves font, fill, border and alignment. *)
Lemma bind_value_style (v : Value) (c c' : Cell) :
  bind_value v c = Ok c' ->
  font c' = font c /\ fill c' = fill c /\ border c' = border c
  /\ alignment c' = alignment c.
Proof.
  unfold bind_value.
  destruct v; simpl; try (by intros [= <-]);
    try (destruct (check_string _); [by intros [= <-] | discriminate]).
  destruct (is_date_format _); by intros [= <-].
Qed.


Lemma bind_value_text (v : Value) (s : string) (c c' : Cell) :
  text_of v = Some s -> bind_value v c = Ok c' ->
  exists s', check_string s = Ok s' /\ value c' = infer s'.
Proof.
  unfold bind_value. intros Ht.
  destruct v; simpl in Ht |- *; try discriminate; injection Ht as <-;
    (destruct (check_string _) as [s'|]; [|discriminate]);
    intros [= <-]; by exists s'.
Qed.

Lemma foldr_insert_lookup {K A} `{Countable K} (x : A) (l : list K) (m : gmap K A) (k : K) :
  foldr (fun k' m' => <[k' := x]> m') m l !! k
  = if decide (k ∈ l) then Some x else m !! k.
Proof.
  induction l as [|k' l IH]; cbn [foldr].
  - rewrite decide_False; [done | apply not_elem_of_nil].
  - destruct (decide (k' = k)) as [->|Hne].
    + rewrite lookup_insert_eq. rewrite decide_True; [done | by left].
    + rewrite lookup_insert_ne by done. rewrite IH.
      destruct (decide (k ∈ l)) as [Hin|Hnin].
      * rewrite decide_True; [done | by right].
      * rewrite decide_False; [done|]. by intros [->|?]%elem_of_cons.
Qed.

Lemma merge_cells_frame (r : CellRange) (ws : Worksheet) :
  title (merge_cells r ws) = title ws
  /\ sheet_state (merge_cells r ws) = sheet_state ws
  /\ column_dimensions (merge_cells r ws) = column_dimensions ws
  /\ row_dimensions (merge_cells r ws) = row_dimensions ws
  /\ merged_cells (merge_cells r ws) = {[ r ]} ∪ merged_cells ws.
Proof. done. Qed.

(** What [merge_cells] leaves at a coordinate. *)
Lemma merge_cells_lookup (r : CellRange) (ws : Worksheet) (rc : Coordinate) :
  cells (merge_cells r ws) !! rc
  = if decide (rc ∈ covered r) then Some merged_cell
    else if decide (rc = fst r) then Some (get_cell ws rc)
    else cells ws !! rc.
Proof.
  unfold merge_cells. cbn [cells with_cells with_merged_cells].
  rewrite foldr_insert_lookup. destruct (decide (rc ∈ covered r)); [done|].
  destruct (decide (rc = fst r)) as [->|Hne].
  - by rewrite lookup_insert_eq.
  - by rewrite lookup_insert_ne.
Qed.

Lemma elem_of_covered (r : CellRange) (rc : Coordinate) :
  rc ∈ covered r -> rc ∈ range_coordinates r.
Proof.
  unfold covered. destruct (range_coordinates r) as [|first rest]; simpl; [done|].
  by right.
Qed.

(** A cell that the range does not cover stays: the top-left cell is
    created only where there is none. *)
Lemma merge_cells_keeps (r : CellRange) (ws : Worksheet) (rc : Coordinate) (c : Cell) :
  cells ws !! rc = Some c -> rc ∉ covered r -> cells (merge_cells r ws) !! rc = Some c.
Proof.
  intros Hc Hnin. rewrite merge_cells_lookup. rewrite decide_False by done.
  destruct (decide (rc = fst r)); [|done]. unfold get_cell. by rewrite Hc.
Qed.

(** The reader leaves a merged cell at every coordinate that a merged
    range of the sheet covers. *)
Lemma bind_merged_cells_spec (ws : Worksheet) :
  let r := bind_merged_cells ws in
  title r = title ws /\ sheet_state r = sheet_state ws
  /\ merged_cells r = merged_cells ws
  /\ forall x rc, x ∈ merged_cells ws -> rc ∈ covered x ->
       cells r !! rc = Some merged_cell.
Proof.
  unfold bind_merged_cells.
  apply (set_fold_ind_L (fun r X =>
    title r = title ws /\ sheet_state r = sheet_state ws
    /\ merged_cells r = X
    /\ forall x rc, x ∈ X -> rc ∈ covered x -> cells r !! rc = Some merged_cell)).
  - split_and!; [done..|]. intros x rc Hx. by apply elem_of_empty in Hx.
  - intros x X r _ (Ht & Hs & Hm & IH).
    destruct (merge_cells_frame x r) as (Ht' & Hs' & _ & _ & Hm').
    split_and!; [congruence | congruence | by rewrite Hm', Hm |].
    intros y rc Hy Hrc. rewrite merge_cells_lookup.
    destruct (decide (rc ∈ covered x)); [done|].
    destruct (decide (y = x)) as [->|Hne]; [done|].
    assert (Hy' : y ∈ X) by set_solver.
    specialize (IH y rc Hy' Hrc).
    case_decide; [|exact IH]. unfold get_cell. by rewrite IH.
Qed.

Lemma getitem_elem_of (wb : Workbook) (n : string) (ws : Worksheet) :
  getitem wb n = Ok ws -> ws ∈ worksheets wb /\ title ws = n.
Proof.
  unfold getitem.
  destruct (List.find _ _) as [ws'|] eqn:Hf; [|discriminate]. intros [= <-].
  apply find_some in Hf as [Hin Heq]. split; [by apply list_elem_of_In|].
  by apply String.eqb_eq.
Qed.

(** In a loaded workbook a cell under a merged range is a merged cell. *)
Lemma loaded_sheet_covered (file_bytes : bytes) (wb : Workbook) (ws : Worksheet) x rc :
  load_workbook file_bytes = Ok wb -> ws ∈ worksheets wb ->
  x ∈ merged_cells ws -> rc ∈ covered x -> cells ws !! rc = Some merged_cell.
Proof.
  unfold load_workbook. destruct (read_container file_bytes) as [raw|]; [|discriminate].
  intros [= <-]. cbn [worksheets]. intros (raw_ws & -> & _)%list_elem_of_fmap Hx Hrc.
  destruct (bind_merged_cells_spec raw_ws) as (_ & _ & Hm & Hcov).
  rewrite Hm in Hx. by apply (Hcov x).
Qed.

End LibraryFacts.

(** ** What the copy loops build *)
Section Copying.
Context {lib : Library}.

Lemma assign_value {A} (r : result A) (set : A -> Cell -> Cell) k t :
  (forall a c, value (set a c) = value c) ->
  (forall c, value (snd (k c)) = value c) ->
  value (snd (assign r set k t)) = value t.
Proof.
  intros Hset Hk. unfold assign. destruct r as [a|e]; simpl; [|done].
  by rewrite Hk, Hset.
Qed.

Lemma copy_style_attributes_value cell t :
  value (snd (copy_style_attributes cell t)) = value t.
Proof.
  unfold copy_style_attributes.
  repeat (apply assign_value; [done | intros ?]). done.
Qed.

(** The cell that a successful round of the cell loop writes: the value
    is assigned to the target cell, and the style block runs on the result
    when the source cell has a style record. *)
Lemma copy_cell_inv cell t tc l :
  copy_cell cell t = (Ok tc, l) ->
  exists assigned,
    bind_value (value cell) t = Ok assigned
    /\ tc = (if has_style cell then snd (copy_style_attributes cell assigned)
             else assigned).
Proof.
  unfold copy_cell, bind, call.
  destruct (bind_value (value cell) t) as [assigned|e]; [|discriminate].
  intros Hrun. exists assigned. split; [done|].
  destruct (has_style cell); [|by injection Hrun as <-].
  destruct (copy_style_attributes cell assigned) as [[[]|e] t']; simpl in *;
    by injection Hrun as <-.
Qed.

Lemma copy_cell_value cell t tc l :
  copy_cell cell t = (Ok tc, l) ->
  exists assigned, bind_value (value cell) t = Ok assigned /\ value tc = value assigned.
Proof.
  intros (assigned & Hb & ->)%copy_cell_inv. exists assigned. split; [done|].
  destruct (has_style cell); [apply copy_style_attributes_value | done].
Qed.


Lemma copy_column_widths_frame source_ws target_ws :
  let r := copy_column_widths source_ws target_ws in
  title r = title target_ws /\ cells r = cells target_ws
  /\ merged_cells r = merged_cells target_ws.
Proof.
  unfold copy_column_widths.
  apply (map_fold_weak_ind (fun r _ =>
    title r = title target_ws /\ cells r = cells target_ws
    /\ merged_cells r = merged_cells target_ws)); [done|].
  intros i x m r _ IH. by destruct (truthy (width x)).
Qed.

Lemma copy_row_heights_frame source_ws target_ws :
  let r := copy_row_heights source_ws target_ws in
  title r = title target_ws /\ cells r = cells target_ws
  /\ merged_cells r = merged_cells target_ws.
Proof.
  unfold copy_row_heights.
  apply (map_fold_weak_ind (fun r _ =>
    title r = title target_ws /\ cells r = cells target_ws
    /\ merged_cells r = merged_cells target_ws)); [done|].
  intros i x m r _ IH. by destruct (truthy (height x)).
Qed.

(** *** The rectangle that [iter_rows] walks *)

Lemma elem_of_pos_range_1 (p n : positive) : p ∈ pos_range 1 n <-> (p <= n)%positive.
Proof.
  unfold pos_range. rewrite list_elem_of_fmap. split.
  - intros (k & -> & Hk%elem_of_seq). lia.
  - intros Hp. exists (Pos.to_nat p). split; [by rewrite Pos2Nat.id|].
    apply elem_of_seq. lia.
Qed.

Lemma NoDup_pos_range (a b : positive) : NoDup (pos_range a b).
Proof.
  unfold pos_range. apply NoDup_fmap_2_strong; [|apply NoDup_seq].
  intros x y Hx%elem_of_seq Hy%elem_of_seq Heq. apply Nat2Pos.inj; lia.
Qed.

Lemma elem_of_concat {A} (x : A) (ls : list (list A)) :
  x ∈ concat ls <-> exists l, l ∈ ls /\ x ∈ l.
Proof.
  induction ls as [|l ls IH]; simpl.
  - split; [by intros ?%elem_of_nil | by intros (l & ?%elem_of_nil & _)].
  - rewrite elem_of_app, IH. split.
    + intros [H|(l' & H1 & H2)]; [exists l; split; [by left | done]|].
      exists l'. split; [by right | done].
    + intros (l' & [->|H1]%elem_of_cons & H2); [by left|]. right. by exists l'.
Qed.

Lemma le_foldr_max {A} (f : A -> positive) (l : list A) (x : A) :
  x ∈ l -> (f x <= foldr Pos.max 1 (f <$> l))%positive.
Proof.
  induction l as [|y l IH]; [by intros ?%elem_of_nil|].
  intros [->|Hin]%elem_of_cons; cbn [foldr fmap list_fmap]; [lia|].
  specialize (IH Hin). lia.
Qed.

Lemma le_max_row ws rc c : cells ws !! rc = Some c -> (fst rc <= max_row ws)%positive.
Proof.
  intros H%elem_of_map_to_list. unfold max_row.
  apply (le_foldr_max (fun entry => fst (fst entry)) _ (rc, c) H).
Qed.

Lemma le_max_column ws rc c :
  cells ws !! rc = Some c -> (snd rc <= max_column ws)%positive.
Proof.
  intros H%elem_of_map_to_list. unfold max_column.
  apply (le_foldr_max (fun entry => snd (fst entry)) _ (rc, c) H).
Qed.

(** [iter_rows] yields the coordinates of the rectangle, each with the
    cell that stands there or a new one. *)
Lemma elem_of_iter_rows ws rc cell :
  (rc, cell) ∈ concat (iter_rows ws)
  <-> cells ws <> ∅ /\ (fst rc <= max_row ws)%positive
      /\ (snd rc <= max_column ws)%positive /\ cell = get_cell ws rc.
Proof.
  unfold iter_rows. destruct (decide (cells ws = ∅)) as [He|Hne].
  - simpl. split; [by intros ?%elem_of_nil | by intros [? _]].
  - rewrite elem_of_concat. split.
    + intros (l & (row & -> & Hrow)%list_elem_of_fmap
                 & (column & [= -> ->] & Hcol)%list_elem_of_fmap).
      apply elem_of_pos_range_1 in Hrow, Hcol. by simpl.
    + intros (_ & Hrow & Hcol & ->). destruct rc as [row column]. simpl in *.
      eexists. split.
      * apply list_elem_of_fmap. exists row. split; [done|].
        by apply elem_of_pos_range_1.
      * apply list_elem_of_fmap. exists column. split; [done|].
        by apply elem_of_pos_range_1.
Qed.

Lemma elem_of_iter_rows_occupied ws rc cell :
  cells ws !! rc = Some cell -> (rc, cell) ∈ concat (iter_rows ws).
Proof.
  intros Hc. apply elem_of_iter_rows. split_and!.
  - intros He. by rewrite He, lookup_empty in Hc.
  - by apply (le_max_row ws rc cell).
  - by apply (le_max_column ws rc cell).
  - unfold get_cell. by rewrite Hc.
Qed.

Lemma NoDup_concat_fmap {A B C} (f : A -> B -> C) (rows : list A) (columns : list B) :
  (forall a a' b b', f a b = f a' b' -> a = a' /\ b = b') ->
  NoDup rows -> NoDup columns ->
  NoDup (concat ((fun a => f a <$> columns) <$> rows)).
Proof.
  intros Hinj Hrows Hcols. induction Hrows as [|a rows Ha _ IH]; simpl; [constructor|].
  apply NoDup_app. split_and!.
  - apply NoDup_fmap_2_strong; [|done]. intros b b' _ _ Heq. by apply Hinj in Heq as [_ ?].
  - intros x (b & -> & _)%list_elem_of_fmap
      (l & (a' & -> & Ha')%list_elem_of_fmap & (b' & Heq & _)%list_elem_of_fmap)%elem_of_concat.
    apply Hinj in Heq as [-> _]. done.
  - done.
Qed.

(** No coordinate comes twice. *)
Lemma NoDup_iter_rows ws : NoDup (concat (iter_rows ws)).*1.
Proof.
  unfold iter_rows. destruct (decide (cells ws = ∅)); [constructor|].
  generalize (pos_range 1 (max_row ws)) (NoDup_pos_range 1 (max_row ws)).
  intros rows Hrows.
  assert (H : (concat ((fun row => (fun column => ((row, column), get_cell ws (row, column)))
                                     <$> pos_range 1 (max_column ws))
                         <$> rows)).*1
              = concat ((fun row => pair row <$> pos_range 1 (max_column ws)) <$> rows)).
  { clear Hrows. induction rows as [|row rows IH]; [done|].
    rewrite !fmap_cons, !concat_cons, fmap_app, IH. f_equal.
    by rewrite <- list_fmap_compose. }
  rewrite H. apply NoDup_concat_fmap; [|done|apply NoDup_pos_range].
  by intros a a' b b' [= -> ->].
Qed.

(** *** The cell loop *)

Lemma for_each_on_app {X S} (xs ys : list X) (body : X -> S -> S * Logged unit) (s : S) :
  for_each_on (xs ++ ys) body s
  = match for_each_on xs body s with
    | (s', (Ok _, l)) =>
        let '(s'', (r, l')) := for_each_on ys body s' in (s'', (r, l ++ l'))
    | (s', (Raise e, l)) => (s', (Raise e, l))
    end.
Proof.
  revert s. induction xs as [|x xs IH]; intros s; simpl.
  - by destruct (for_each_on ys body s) as [s'' [r l']].
  - destruct (body x s) as [s1 [[[]|e] l1]]; [|done]. rewrite IH.
    destruct (for_each_on xs body s1) as [s2 [[[]|e2] l2]]; [|done].
    destruct (for_each_on ys body s2) as [s3 [r l3]]. by rewrite app_assoc.
Qed.

(** The two nested loops walk the cells of the rows in one sequence. *)
Lemma for_each_on_concat {X S} (rows : list (list X)) (body : X -> S -> S * Logged unit)
    (s : S) :
  for_each_on rows (fun row => for_each_on row body) s
  = for_each_on (concat rows) body s.
Proof.
  revert s. induction rows as [|row rows IH]; intros s; simpl; [done|].
  rewrite for_each_on_app.
  destruct (for_each_on row body s) as [s1 [[[]|e] l1]]; [|done]. by rewrite IH.
Qed.

Lemma copy_cells_flat source_ws target_ws :
  copy_cells source_ws target_ws
  = for_each_on (concat (iter_rows source_ws)) copy_into target_ws.
Proof. apply for_each_on_concat. Qed.

(** The cell loop touches the cells only, whether it raises or not. *)
Lemma copy_entries_frame entries target_ws :
  let r := fst (for_each_on entries copy_into target_ws) in
  title r = title target_ws /\ sheet_state r = sheet_state target_ws
  /\ column_dimensions r = column_dimensions target_ws
  /\ row_dimensions r = row_dimensions target_ws
  /\ merged_cells r = merged_cells target_ws.
Proof.
  revert target_ws. induction entries as [|[rc cell] entries IH]; intros target_ws;
    simpl; [done|].
  destruct (copy_cell cell (get_cell target_ws rc)) as [[tc|e] l]; [|done].
  match goal with
  | |- context [for_each_on entries copy_into ?t] =>
      specialize (IH t); destruct (for_each_on entries copy_into t) as [s [r l']]
  end.
  simpl in *. done.
Qed.

(** When the cell loop ends without an exception, the target holds at
    every coordinate of the walk the cell that the round of that
    coordinate wrote, and elsewhere what it held before. *)
Lemma copy_entries_lookup entries target_ws result log :
  NoDup entries.*1 ->
  for_each_on entries copy_into target_ws = (result, (Ok tt, log)) ->
  (forall rc cell, (rc, cell) ∈ entries ->
     exists tc l, copy_cell cell (get_cell target_ws rc) = (Ok tc, l)
                  /\ cells result !! rc = Some tc)
  /\ (forall rc, rc ∉ entries.*1 -> cells result !! rc = cells target_ws !! rc).
Proof.
  revert target_ws result log.
  induction entries as [|[rc0 cell0] entries IH]; intros target_ws result log Hnd Hrun.
  - injection Hrun as <- _. split; [by intros ? ? ?%elem_of_nil | done].
  - cbn [fmap list_fmap fst] in Hnd. apply NoDup_cons in Hnd as [Hrc0 Hnd].
    cbn [for_each_on copy_into] in Hrun.
    destruct (copy_cell cell0 (get_cell target_ws rc0)) as [[tc0|e] l0] eqn:Hc;
      [|discriminate].
    match type of Hrun with
    | context [for_each_on entries copy_into ?t] =>
        set (target1 := t) in *; destruct (for_each_on entries copy_into target1)
          as [res1 [[[]|e1] l1]] eqn:Hrest; [|discriminate]
    end.
    injection Hrun as <- _.
    destruct (IH target1 res1 l1 Hnd Hrest) as [Hin Hout].
    assert (Hnew : cells target1 !! rc0 = Some tc0).
    { unfold target1. cbn [cells with_cells]. by rewrite lookup_insert_eq. }
    assert (Hold : forall rc, rc <> rc0 -> cells target1 !! rc = cells target_ws !! rc).
    { intros rc Hne. unfold target1. cbn [cells with_cells].
      by rewrite !lookup_insert_ne. }
    split.
    + intros rc cell [[= -> ->]|Hin']%elem_of_cons.
      * exists tc0, l0. split; [done|]. by rewrite Hout.
      * destruct (Hin rc cell Hin') as (tc & l & Hcc & Hl). exists tc, l.
        split; [|done]. rewrite <- Hcc. f_equal. unfold get_cell.
        rewrite Hold; [done|]. intros ->. apply Hrc0.
        by apply (list_elem_of_fmap_2 fst) in Hin'.
    + intros rc Hnin. cbn [fmap list_fmap fst] in Hnin.
      apply not_elem_of_cons in Hnin as [Hne Hnin].
      rewrite Hout by done. by apply Hold.
Qed.

(** *** The merged ranges *)

Lemma copy_merged_cells_spec source_ws target_ws :
  let r := copy_merged_cells source_ws target_ws in
  title r = title target_ws /\ sheet_state r = sheet_state target_ws
  /\ column_dimensions r = column_dimensions target_ws
  /\ row_dimensions r = row_dimensions target_ws
  /\ merged_cells r = merged_cells source_ws ∪ merged_cells target_ws
  /\ forall rc c, cells target_ws !! rc = Some c ->
       (forall x, x ∈ merged_cells source_ws -> rc ∉ covered x) ->
       cells r !! rc = Some c.
Proof.
  unfold copy_merged_cells.
  apply (set_fold_ind_L (fun r X =>
    title r = title target_ws /\ sheet_state r = sheet_state target_ws
    /\ column_dimensions r = column_dimensions target_ws
    /\ row_dimensions r = row_dimensions target_ws
    /\ merged_cells r = X ∪ merged_cells target_ws
    /\ forall rc c, cells target_ws !! rc = Some c ->
         (forall x, x ∈ X -> rc ∉ covered x) -> cells r !! rc = Some c)).
  - split_and!; [done..| set_solver | done].
  - intros x X r _ (Ht & Hs & Hc & Hr & Hm & IH).
    destruct (merge_cells_frame x r) as (Ht' & Hs' & Hc' & Hr' & Hm').
    split_and!; [congruence.. | rewrite Hm', Hm; set_solver |].
    intros rc c Hrc Hcov. apply merge_cells_keeps.
    + apply IH; [done|]. intros y Hy. apply Hcov. set_solver.
    + apply Hcov. set_solver.
Qed.

(** *** The rebuilt sheet *)

(** The sheet before the cell loop: the title asked for, no cell, no
    merged range. *)
Lemma sized_sheet_frame source_ws sheet_name :
  let t := copy_row_heights source_ws
             (copy_column_widths source_ws (create_sheet sheet_name)) in
  title t = sheet_name /\ cells t = ∅ /\ merged_cells t = ∅.
Proof.
  destruct (copy_column_widths_frame source_ws (create_sheet sheet_name))
    as (Ht1 & Hc1 & Hm1).
  destruct (copy_row_heights_frame source_ws
              (copy_column_widths source_ws (create_sheet sheet_name)))
    as (Ht2 & Hc2 & Hm2).
  cbn zeta in *. split_and!.
  - by rewrite Ht2, Ht1.
  - by rewrite Hc2, Hc1.
  - by rewrite Hm2, Hm1.
Qed.

(** When the lines that build the sheet do not raise, the sheet is the one
    that the cell loop left, with the merged ranges registered. *)
Lemma copy_sheet_ok source_ws sheet_name target_ws log :
  copy_sheet source_ws sheet_name = (target_ws, (Ok tt, log)) ->
  target_ws = copy_merged_cells source_ws (cells_copied source_ws sheet_name)
  /\ exists log', copy_cells source_ws
                    (copy_row_heights source_ws
                       (copy_column_widths source_ws (create_sheet sheet_name)))
                  = (cells_copied source_ws sheet_name, (Ok tt, log')).
Proof.
  unfold copy_sheet, cells_copied.
  destruct (copy_cells source_ws _) as [t [[[]|e] l]]; [|discriminate].
  intros [= <- _]. split; [done|]. by exists l.
Qed.

(** What the cell loop leaves for an occupied coordinate of the source. *)
Lemma cells_copied_lookup source_ws sheet_name target_ws log rc cell :
  copy_sheet source_ws sheet_name = (target_ws, (Ok tt, log)) ->
  cells source_ws !! rc = Some cell ->
  exists tc l, copy_cell cell new_cell = (Ok tc, l)
               /\ cells (cells_copied source_ws sheet_name) !! rc = Some tc.
Proof.
  intros (_ & log' & Hcells)%copy_sheet_ok Hcell.
  rewrite copy_cells_flat in Hcells.
  destruct (copy_entries_lookup _ _ _ _ (NoDup_iter_rows source_ws) Hcells) as [Hin _].
  destruct (Hin rc cell (elem_of_iter_rows_occupied _ _ _ Hcell)) as (tc & l & Hc & Hl).
  exists tc, l. split; [|done]. rewrite <- Hc. f_equal. unfold get_cell.
  destruct (sized_sheet_frame source_ws sheet_name) as (_ & He & _). cbn zeta in He.
  by rewrite He, lookup_empty.
Qed.

(** The sheet that [extract] hands to the encoder. *)
Lemma extract_ok_inv wb n blob :
  fst (extract wb n) = Ok blob ->
  exists source_ws log,
    getitem wb n = Ok source_ws
    /\ copy_sheet source_ws n = (fst (copy_sheet source_ws n), (Ok tt, log))
    /\ save {| worksheets := [fst (copy_sheet source_ws n)] |} = Ok blob.
Proof.
  unfold extract, bind, call. destruct (getitem wb n) as [source_ws|e]; [|done].
  destruct (copy_sheet source_ws n) as [target_ws [[[]|e] l]] eqn:Hcs; [|done].
  cbn [fst snd]. destruct (save _) as [b|e] eqn:Hs; [|done].
  intros [= ->]. exists source_ws, l. by rewrite Hcs.
Qed.

End Copying.

(** ** What the pipeline computes *)
Section Pipeline.
Context {cfg : Config} {lib : Library}.

Lemma getitem_sheetname wb n :
  n ∈ sheetnames wb -> exists ws, getitem wb n = Ok ws /\ title ws = n /\ ws ∈ worksheets wb.
Proof.
  unfold sheetnames, getitem. intros (ws & -> & Hin)%list_elem_of_fmap.
  destruct (List.find _ _) as [ws'|] eqn:Hf.
  - apply find_some in Hf as [Hin' Heq%String.eqb_eq].
    exists ws'. by rewrite list_elem_of_In.
  - apply find_none with (x := ws) in Hf; [|by apply list_elem_of_In].
    by rewrite String.eqb_refl in Hf.
Qed.

Lemma bind_call_ok {A B} (a : A) (k : A -> Logged B) : bind (call (Ok a)) k = k a.
Proof. unfold bind, call. by destruct (k a). Qed.

Lemma select_step_spec wb n v h :
  n ∈ sheetnames wb ->
  select_step wb n (v, h)
  = (Ok (if visible_name wb n then (v ++ [n], h) else (v, h ++ [n])), []).
Proof.
  intros (ws & Hg & _)%getitem_sheetname.
  unfold select_step, visible_name. rewrite Hg, bind_call_ok.
  by destruct (decide (sheet_state ws = visible));
    [rewrite bool_decide_eq_true_2 | rewrite bool_decide_eq_false_2].
Qed.

Lemma select_loop wb names v h :
  (forall n, n ∈ names -> n ∈ sheetnames wb) ->
  for_each names (select_step wb) (v, h)
  = (Ok (v ++ List.filter (visible_name wb) names,
         h ++ List.filter (fun n => negb (visible_name wb n)) names), []).
Proof.
  revert v h. induction names as [|n names IH]; intros v h Hin.
  - simpl. by rewrite !app_nil_r.
  - cbn [for_each List.filter]. rewrite select_step_spec by (apply Hin; left).
    unfold bind. destruct (visible_name wb n); simpl;
      rewrite IH by (intros; apply Hin; by right); by rewrite <- !app_assoc.
Qed.

(** The selection never raises: every name it looks up is a sheet name. *)
Lemma select_spec wb : select wb = (Ok (visible_sheets wb, hidden_sheets wb), []).
Proof. unfold select. by rewrite select_loop. Qed.

Lemma process_sheet_guarded_spec wb base n files :
  process_sheet_guarded wb base n files =
    match extract wb n with
    | (Ok b, l) =>
        (Ok (<[output_filename base n := b]> files),
         (INFO, "Processing sheet: " +:+ n) :: l
           ++ [(INFO, "Successfully processed sheet: " +:+ n)])
    | (Raise e, l) =>
        (Ok files, (INFO, "Processing sheet: " +:+ n) :: l ++ [sheet_error n e])
    end.
Proof.
  unfold process_sheet_guarded, process_sheet, try_except, bind, logger, emit, ret.
  destruct (extract wb n) as [[b|e] l]; simpl; by rewrite ?app_nil_r.
Qed.

Lemma process_sheet_guarded_fst wb base n files :
  fst (process_sheet_guarded wb base n files) = Ok (step wb base files n).
Proof.
  rewrite process_sheet_guarded_spec. unfold step.
  by destruct (extract wb n) as [[b|e] l].
Qed.

Lemma process_sheet_guarded_snd wb base n files :
  snd (process_sheet_guarded wb base n files) = snd (process_sheet_guarded wb "" n ∅).
Proof.
  rewrite !process_sheet_guarded_spec. by destruct (extract wb n) as [[b|e] l].
Qed.

(** The loop never raises; it folds [step] over the names. *)
Lemma loop_spec wb base names files :
  for_each names (process_sheet_guarded wb base) files
  = (Ok (foldl (step wb base) files names), loop_log wb names).
Proof.
  unfold loop_log. generalize (∅ : gmap string bytes) as files'.
  revert files. induction names as [|n names IH]; intros files files'; [done|].
  simpl. unfold bind.
  pose proof (process_sheet_guarded_fst wb base n files) as H1.
  pose proof (process_sheet_guarded_snd wb base n files) as H2.
  pose proof (process_sheet_guarded_fst wb "" n files') as H3.
  pose proof (process_sheet_guarded_snd wb "" n files') as H4.
  destruct (process_sheet_guarded wb base n files) as [r1 l1].
  destruct (process_sheet_guarded wb "" n files') as [r2 l2].
  simpl in *. subst r1 r2. rewrite H2, H4.
  rewrite (IH (step wb base files n) (step wb "" files' n)).
  by destruct (for_each names _ (step wb "" files' n)).
Qed.

(** *** The dictionary that the loop leaves *)

Lemma length_append (x s : string) :
  String.length (x +:+ s) = (String.length x + String.length s)%nat.
Proof. induction x as [|a x IH]; simpl; [done | by rewrite IH]. Qed.

Lemma append_cancel_r (x y s : string) : x +:+ s = y +:+ s -> x = y.
Proof.
  intros H.
  assert (Hlen : String.length x = String.length y).
  { apply (f_equal String.length) in H. rewrite !length_append in H. lia. }
  revert y H Hlen. induction x as [|a x IH]; intros [|b y] H Hlen; try done.
  simpl in *. injection H as -> H. f_equal. apply IH; [done | lia].
Qed.

Lemma output_filename_inj base n1 n2 :
  output_filename base n1 = output_filename base n2 <->
  sanitize_filename n1 = sanitize_filename n2.
Proof.
  unfold output_filename. split; [|by intros ->].
  intros H. apply String.app_inj in H. apply String.app_inj in H.
  by apply append_cancel_r in H.
Qed.

(** Every entry was written by a sheet that was extracted. *)
Lemma foldl_step_provenance wb base names files k b :
  foldl (step wb base) files names !! k = Some b ->
  files !! k = Some b
  \/ exists n, n ∈ names /\ output_filename base n = k /\ fst (extract wb n) = Ok b.
Proof.
  revert files. induction names as [|n names IH]; intros files; simpl; [by left|].
  intros [H|(n' & Hin & Hk & He)]%IH.
  - unfold step in H. destruct (fst (extract wb n)) as [b'|e] eqn:He; [|by left].
    destruct (decide (output_filename base n = k)) as [<-|Hne].
    + rewrite lookup_insert_eq in H. injection H as ->.
      right. exists n. split_and!; [by left | done..].
    + rewrite lookup_insert_ne in H by done. by left.
  - right. exists n'. split_and!; [by right | done..].
Qed.

(** Sheets that write under other names leave an entry alone. *)
Lemma foldl_step_other wb base names files k :
  (forall n, n ∈ names -> extracted wb n = true -> output_filename base n <> k) ->
  foldl (step wb base) files names !! k = files !! k.
Proof.
  revert files. induction names as [|n names IH]; intros files Hne; simpl; [done|].
  rewrite IH by (intros; apply Hne; [by right | done]).
  unfold step. pose proof (Hne n ltac:(by left)) as Hn. unfold extracted in Hn.
  destruct (fst (extract wb n)); [|done].
  by rewrite lookup_insert_ne by (by apply Hn).
Qed.

(** The last extracted sheet of a file name is the one whose bytes stay. *)
Lemma foldl_step_last wb base before n after files b :
  fst (extract wb n) = Ok b ->
  (forall n', n' ∈ after -> extracted wb n' = true ->
              sanitize_filename n' <> sanitize_filename n) ->
  foldl (step wb base) files (before ++ n :: after) !! output_filename base n = Some b.
Proof.
  intros He Hafter. rewrite foldl_app. simpl.
  rewrite foldl_step_other.
  - unfold step at 1. rewrite He. apply lookup_insert_eq.
  - intros n' Hin Hx Heq. apply output_filename_inj in Heq. by eapply Hafter.
Qed.

Lemma foldl_step_keeps wb base names files k :
  is_Some (files !! k) -> is_Some (foldl (step wb base) files names !! k).
Proof.
  revert files. induction names as [|n names IH]; intros files Hk; simpl; [done|].
  apply IH. unfold step. destruct (fst (extract wb n)); [|done].
  rewrite lookup_insert. case_decide; eauto.
Qed.

Lemma foldl_step_size_le wb base names files :
  (size (foldl (step wb base) files names)
   <= size files + length (List.filter (extracted wb) names))%nat.
Proof.
  revert files. induction names as [|n names IH]; intros files; simpl; [lia|].
  etrans; [apply IH|]. unfold step, extracted.
  destruct (fst (extract wb n)); simpl; [|lia].
  rewrite map_size_insert. destruct (files !! _); simpl; lia.
Qed.

(** Two extracted sheets of one file name: one entry less than sheets. *)
Lemma foldl_step_size_lt wb base l1 s1 l2 s2 l3 files :
  extracted wb s1 = true -> extracted wb s2 = true ->
  sanitize_filename s1 = sanitize_filename s2 ->
  (size (foldl (step wb base) files (l1 ++ s1 :: l2 ++ s2 :: l3))
   < size files
     + length (List.filter (extracted wb) (l1 ++ s1 :: l2 ++ s2 :: l3)))%nat.
Proof.
  intros H1 H2 Heq.
  replace (l1 ++ s1 :: l2 ++ s2 :: l3) with ((l1 ++ s1 :: l2) ++ s2 :: l3)
    by (by rewrite <- app_assoc).
  rewrite foldl_app, List.filter_app, length_app. simpl. rewrite H2. simpl.
  set (F := foldl (step wb base) files (l1 ++ s1 :: l2)).
  assert (HF : is_Some (F !! output_filename base s2)).
  { unfold F. rewrite foldl_app. simpl. apply foldl_step_keeps.
    unfold step, extracted in *. destruct (fst (extract wb s1)) as [b1|]; [|done].
    apply output_filename_inj with (base := base) in Heq. rewrite <- Heq.
    rewrite lookup_insert_eq. eauto. }
  pose proof (foldl_step_size_le wb base l3 (step wb base F s2)) as Hle3.
  pose proof (foldl_step_size_le wb base (l1 ++ s1 :: l2) files) as Hle1.
  fold F in Hle1.
  assert (Hsz : size (step wb base F s2) = size F).
  { unfold step, extracted in *. destruct (fst (extract wb s2)); [|done].
    by apply map_size_insert_Some. }
  lia.
Qed.

(** Extracted sheets of pairwise different file names: one entry each. *)
Lemma foldl_step_size_eq wb base names files :
  Forall (fun n => extracted wb n = true) names ->
  NoDup (sanitize_filename <$> names) ->
  (forall n, n ∈ names -> files !! output_filename base n = None) ->
  size (foldl (step wb base) files names) = (size files + length names)%nat.
Proof.
  revert files. induction names as [|n names IH]; intros files Hall Hnd Hfresh;
    simpl; [lia|].
  inversion Hall as [|? ? Hn Hall']; subst.
  rewrite fmap_cons in Hnd. apply NoDup_cons in Hnd as [Hnotin Hnd].
  unfold step at 2. unfold extracted in Hn.
  destruct (fst (extract wb n)) as [b|] eqn:He; [|done].
  rewrite IH; [|done..|].
  - rewrite map_size_insert_None by (apply Hfresh; by left). lia.
  - intros n' Hin. rewrite lookup_insert_ne; [apply Hfresh; by right|].
    intros Heq%output_filename_inj. apply Hnotin. rewrite Heq.
    by apply list_elem_of_fmap_2.
Qed.

(** The function on a workbook that loads and respects the ceiling. *)
Lemma split_loaded file_bytes original_filename wb :
  load_workbook file_bytes = Ok wb ->
  Z.of_nat (length (sheetnames wb)) <= MAX_SHEETS ->
  let base_name := fst (Py.splitext original_filename) in
  let files := foldl (step wb base_name) ∅ (visible_sheets wb) in
  split_excel_by_sheets_simple file_bytes original_filename
  = (Ok (if decide (files = ∅) then (∅, Some no_sheets_processed) else (files, None)),
     selection_log original_filename wb ++ loop_log wb (visible_sheets wb)).
Proof.
  intros Hload Hmax base_name files.
  unfold split_excel_by_sheets_simple. rewrite Hload.
  unfold call, bind at 1. simpl.
  destruct (Z.ltb_spec MAX_SHEETS (Z.of_nat (length (sheetnames wb)))) as [?|_]; [lia|].
  rewrite select_spec. unfold bind at 1. simpl.
  fold base_name. rewrite loop_spec. fold files.
  unfold selection_log, try_except, bind, logger, emit, ret.
  destruct (hidden_sheets wb) as [|h hs]; simpl;
    destruct (decide (files = ∅)); simpl; by rewrite ?app_nil_r.
Qed.

End Pipeline.


(** ** The records of the loop *)
Section Records.
Context {lib : Library}.



Lemma visible_sheets_visible wb n :
  n ∈ visible_sheets wb ->
  exists ws, getitem wb n = Ok ws /\ sheet_state ws = visible.
Proof.
  unfold visible_sheets. rewrite list_elem_of_In, filter_In.
  intros [_ Hv]. unfold visible_name in Hv.
  destruct (getitem wb n) as [ws|]; [|done].
  apply bool_decide_eq_true in Hv. eauto.
Qed.

Lemma unique_title wb ws ws' :
  NoDup (sheetnames wb) -> ws ∈ worksheets wb -> ws' ∈ worksheets wb ->
  title ws = title ws' -> ws = ws'.
Proof.
  unfold sheetnames. generalize (worksheets wb) as l.
  induction l as [|x l IH]; intros Hnd H1 H2 Heq; [by apply elem_of_nil in H1|].
  change (map title (x :: l)) with (title x :: map title l) in Hnd.
  apply NoDup_cons in Hnd as [Hx Hnd].
  apply elem_of_cons in H1 as [->|H1]; apply elem_of_cons in H2 as [->|H2];
    [done | | | by apply IH].
  - exfalso. apply Hx. rewrite Heq. by apply (list_elem_of_fmap_2 title).
  - exfalso. apply Hx. rewrite <- Heq. by apply (list_elem_of_fmap_2 title).
Qed.

(** Under unique titles the visible list holds no hidden sheet's name. *)
Lemma hidden_title_not_selected wb ws :
  NoDup (sheetnames wb) -> ws ∈ worksheets wb -> sheet_state ws <> visible ->
  title ws ∉ visible_sheets wb.
Proof.
  intros Hnd Hin Hst (ws' & Hg & Hv)%visible_sheets_visible.
  destruct (getitem_sheetname wb (title ws)) as (ws'' & Hg' & Ht & Hin').
  { by apply (list_elem_of_fmap_2 title). }
  rewrite Hg in Hg'. injection Hg' as <-.
  apply Hst. by rewrite (unique_title wb ws ws').
Qed.

Lemma filter_extracted_all wb names :
  Forall (fun n => extracted wb n = true) names ->
  List.filter (extracted wb) names = names.
Proof.
  induction 1 as [|n names Hn _ IH]; simpl; [done|]. by rewrite Hn, IH.
Qed.

End Records.


(** ** The properties of the specification *)
Section Claims.
Context {cfg : Config} {lib : Library}.

(** C5. A workbook whose sheet count is at most the ceiling, so also
    exactly the ceiling, is not rejected for its sheet count: the function
    goes on to the selection and the loop and answers with the collected
    files or with the message that no sheet was processed.  A workbook with
    more sheets than the ceiling is answered with the empty mapping and the
    too-many-sheets message, and nothing was selected or extracted before:
    no record reached the logger. *)
Theorem sheet_count_ceiling file_bytes original_filename wb :
  load_workbook file_bytes = Ok wb ->
  (Z.of_nat (length (sheetnames wb)) <= MAX_SHEETS ->
     exists files : gmap string bytes,
       split_excel_by_sheets_simple file_bytes original_filename
       = (Ok (files, if decide (files = ∅) then Some no_sheets_processed else None),
          selection_log original_filename wb ++ loop_log wb (visible_sheets wb))
       /\ no_sheets_processed <> too_many_sheets (length (sheetnames wb)))
  /\ (MAX_SHEETS < Z.of_nat (length (sheetnames wb)) ->
        split_excel_by_sheets_simple file_bytes original_filename
        = (Ok (∅, Some (too_many_sheets (length (sheetnames wb)))), [])).
Proof.
  intros Hload. split.
  - intros Hmax. rewrite (split_loaded _ _ wb Hload Hmax).
    set (files := foldl _ _ _). exists files. split.
    + destruct (decide (files = ∅)) as [Heq|Hne]; [by rewrite Heq | done].
    + unfold no_sheets_processed, too_many_sheets. simpl. discriminate.
  - intros Hmax. unfold split_excel_by_sheets_simple. rewrite Hload.
    rewrite bind_call_ok.
    destruct (Z.ltb_spec MAX_SHEETS (Z.of_nat (length (sheetnames wb)))); [done | lia].
Qed.



(** C9 (amended). In a loaded workbook, a source cell that holds a formula
    has, on the sheet that [extract] encodes, a cell at the same coordinate
    that stores the source string of the formula cut to its first 32767
    characters: the same string when it has no more than that, the equals
    sign included, and then as a formula as soon as something follows the
    equals sign. *)
Theorem formula_copied_verbatim file_bytes wb sheet_name blob :
  load_workbook file_bytes = Ok wb ->
  fst (extract wb sheet_name) = Ok blob ->
  exists source_ws,
    getitem wb sheet_name = Ok source_ws
    /\ save {| worksheets := [fst (copy_sheet source_ws sheet_name)] |} = Ok blob
    /\ forall rc cell expression,
         cells source_ws !! rc = Some cell ->
         value cell = VFormula expression ->
         exists target_cell,
           cells (fst (copy_sheet source_ws sheet_name)) !! rc = Some target_cell
           /\ text_of (value target_cell)
              = Some (Py.slice_to ("=" +:+ expression) 32767)
           /\ (Py.len ("=" +:+ expression) <= 32767 ->
               text_of (value target_cell) = Some ("=" +:+ expression)
               /\ (expression <> EmptyString ->
                   value target_cell = VFormula expression)).
Proof.
  intros Hload Hx.
  destruct (extract_ok_inv _ _ _ Hx) as (source_ws & log & Hg & Hcs & Hsave).
  destruct (copy_sheet_ok _ _ _ _ Hcs) as (Heq & _).
  exists source_ws. split_and!; [done..|].
  intros rc cell expression Hcell Hv.
  destruct (cells_copied_lookup _ _ _ _ rc cell Hcs Hcell) as (tc & l & Hcc & Hl).
  exists tc. split.
  - rewrite Heq.
    destruct (copy_merged_cells_spec source_ws (cells_copied source_ws sheet_name))
      as (_ & _ & _ & _ & _ & Hkeep).
    apply Hkeep; [done|]. intros x Hin Hcov.
    destruct (getitem_elem_of _ _ _ Hg) as [Hws _].
    pose proof (loaded_sheet_covered _ _ _ x rc Hload Hws Hin Hcov) as Hm.
    rewrite Hcell in Hm. injection Hm as ->. discriminate Hv.
  - destruct (copy_cell_value _ _ _ _ Hcc) as (assigned & Hb & ->).
    rewrite Hv in Hb.
    destruct (bind_value_text (VFormula expression) ("=" +:+ expression) _ _ eq_refl Hb)
      as (s' & Hcheck & ->).
    rewrite text_of_infer. split.
    + by rewrite (check_string_cut _ _ Hcheck).
    + intros Hlen. apply check_string_fits in Hcheck; [|done]. subst s'.
      split; [done|]. intros Hne.
      destruct expression; [done | apply infer_formula].
Qed.

(** C8 (amended). When no extraction fails, the mapping has at most as
    many entries as there are visible sheets, and exactly as many when the
    visible sheet names keep apart under the file-name sanitization; and
    the name built from a hidden or very hidden sheet's name is among the
    output names only when a visible sheet's name sanitizes as that
    sheet's does. *)
Theorem visible_sheets_yield_entries file_bytes original_filename wb :
  load_workbook file_bytes = Ok wb ->
  Z.of_nat (length (sheetnames wb)) <= MAX_SHEETS ->
  Forall (fun n => extracted wb n = true) (visible_sheets wb) ->
  exists files err log,
    split_excel_by_sheets_simple file_bytes original_filename = (Ok (files, err), log)
    /\ (size files <= length (visible_sheets wb))%nat
    /\ (NoDup (sanitize_filename <$> visible_sheets wb) ->
        size files = length (visible_sheets wb))
    /\ (forall ws, ws ∈ worksheets wb -> sheet_state ws <> visible ->
        is_Some (files !! output_filename (fst (Py.splitext original_filename))
                             (title ws)) ->
        exists n, n ∈ visible_sheets wb
                  /\ sanitize_filename n = sanitize_filename (title ws)).
Proof.
  intros Hload Hmax Hall.
  set (base_name := fst (Py.splitext original_filename)).
  set (files := foldl (step wb base_name) ∅ (visible_sheets wb)).
  exists files, (if decide (files = ∅) then Some no_sheets_processed else None),
    (selection_log original_filename wb ++ loop_log wb (visible_sheets wb)).
  split_and!.
  - rewrite (split_loaded _ _ wb Hload Hmax). fold base_name files.
    destruct (decide (files = ∅)) as [Heq|Hne]; [by rewrite Heq | done].
  - pose proof (foldl_step_size_le wb base_name (visible_sheets wb) ∅) as Hle.
    rewrite filter_extracted_all, map_size_empty in Hle by done. done.
  - intros Hnd. unfold files.
    rewrite foldl_step_size_eq; first [done | by rewrite map_size_empty].
  - intros ws _ _ [b Hk]. unfold files in Hk.
    apply foldl_step_provenance in Hk as [Hk|(n & Hin & Hn & _)];
      [by rewrite lookup_empty in Hk|].
    exists n. split; [done|]. by apply (output_filename_inj base_name).
Qed.

(** C10. Two visible sheets that are both extracted and whose names
    sanitize to the same file name share one entry of the mapping: it
    holds the bytes of the one extracted last, and the mapping has fewer
    entries than sheets were extracted. *)
Theorem colliding_names_last_wins file_bytes original_filename wb l1 s1 l2 s2 l3 b1 b2 :
  load_workbook file_bytes = Ok wb ->
  Z.of_nat (length (sheetnames wb)) <= MAX_SHEETS ->
  visible_sheets wb = l1 ++ s1 :: l2 ++ s2 :: l3 ->
  sanitize_filename s1 = sanitize_filename s2 ->
  fst (extract wb s1) = Ok b1 ->
  fst (extract wb s2) = Ok b2 ->
  (forall n, n ∈ l3 -> extracted wb n = true ->
             sanitize_filename n <> sanitize_filename s2) ->
  let base_name := fst (Py.splitext original_filename) in
  exists files log,
    split_excel_by_sheets_simple file_bytes original_filename = (Ok (files, None), log)
    /\ output_filename base_name s1 = output_filename base_name s2
    /\ files !! output_filename base_name s2 = Some b2
    /\ (size files < length (List.filter (extracted wb) (visible_sheets wb)))%nat.
Proof.
  intros Hload Hmax Hvis Hsan H1 H2 Hlast base_name.
  set (files := foldl (step wb base_name) ∅ (visible_sheets wb)).
  assert (Hk : files !! output_filename base_name s2 = Some b2).
  { unfold files. rewrite Hvis.
    replace (l1 ++ s1 :: l2 ++ s2 :: l3) with ((l1 ++ s1 :: l2) ++ s2 :: l3)
      by (by rewrite <- app_assoc).
    by apply foldl_step_last. }
  exists files, (selection_log original_filename wb ++ loop_log wb (visible_sheets wb)).
  split_and!.
  - rewrite (split_loaded _ _ wb Hload Hmax). fold base_name files.
    rewrite decide_False; [done|]. intros Heq. by rewrite Heq, lookup_empty in Hk.
  - by apply output_filename_inj.
  - done.
  - unfold files. rewrite Hvis.
    pose proof (foldl_step_size_lt wb base_name l1 s1 l2 s2 l3 ∅) as Hlt.
    rewrite map_size_empty in Hlt. apply Hlt; [| |done]; unfold extracted.
    + by rewrite H1.
    + by rewrite H2.
Qed.

End Claims.


(** ** The properties on the sample workbooks *)
Section Exercised.
Import Sample.

Lemma same_content_refl (l : list Worksheet) : Forall2 same_content l l.
Proof. induction l; constructor; [by split_and! | done]. Qed.

Lemma archive_faithful : @faithful_codec archive.
Proof.
  intros w blob. unfold archive at 1. cbn [save].
  destruct (decide (w = rebuilt)) as [->|]; [|done].
  intros [= <-]. exists rebuilt. split; [by vm_compute | apply same_content_refl].
Qed.

(** C2: an upload whose name passes the extension check and holds a colon
    gives a blob whose name keeps the colon, where the sanitization of that
    base name replaces it. *)
Theorem base_name_is_not_sanitized :
  allowed_file "Q1:2024.xlsx" = true
  /\ fst (@split_excel_by_sheets_simple (ceiling 100) (library report []) []
         "Q1:2024.xlsx")
  = Ok ({[ "Q1:2024_Summary.xlsx"%string := list_byte_of_string "Summary" ]}, None)
  /\ sanitize_filename "Q1:2024" = "Q1_2024"%string
  /\ "Q1:2024_Summary.xlsx"%string
     <> (sanitize_filename "Q1:2024" +:+ "_" +:+ sanitize_filename "Summary" +:+ ".xlsx").
Proof.
  split_and!; [by vm_compute | by vm_compute | by vm_compute | vm_compute; discriminate].
Qed.



(** C9, as stated, fails: a formula of 32768 characters, the equals sign
    included, is extracted without an exception, and the cell of the
    extracted sheet stores the first 32767 characters only. *)
Lemma long_formula_is_cut :
  getitem ledger "Long" = Ok long_sheet
  /\ value_at long_sheet (1, 1)%positive = VFormula long_expression
  /\ Py.len ("=" +:+ long_expression) = 32768
  /\ fst (@extract (library ledger []) ledger "Long") = Ok (list_byte_of_string "Long")
  /\ Py.len <$> text_of (value_at (fst (@copy_sheet (library ledger []) long_sheet "Long"))
                           (1, 1)%positive)
     = Some 32767
  /\ text_of (value_at (fst (@copy_sheet (library ledger []) long_sheet "Long"))
                (1, 1)%positive)
     <> Some ("=" +:+ long_expression).
Proof.
  split_and!.
  - reflexivity.
  - reflexivity.
  - by vm_compute.
  - by vm_compute.
  - by vm_compute.
  - intros H. apply (f_equal (fmap Py.len)) in H. vm_compute in H. discriminate.
Qed.

Lemma formula_copied_verbatim_witness :
  exists target_cell,
    cells (fst (@copy_sheet (library report []) summary "Summary")) !! (2, 2)%positive
    = Some target_cell
    /\ text_of (value target_cell) = Some "=A1+B1"%string
    /\ value target_cell = VFormula "A1+B1".
Proof.
  destruct (@formula_copied_verbatim (library report []) [] report "Summary"
              (list_byte_of_string "Summary"))
    as (source_ws & Hg & _ & Hcells).
  - vm_compute. reflexivity.
  - vm_compute. reflexivity.
  - assert (Hws : Ok source_ws = Ok summary) by (rewrite <- Hg; reflexivity).
    injection Hws as ->.
    destruct (Hcells (2, 2)%positive (plain (VFormula "A1+B1")) "A1+B1"%string)
      as (t & Ht & _ & Hfit).
    + vm_compute. reflexivity.
    + reflexivity.
    + destruct Hfit as [Htext Hv]; [vm_compute; discriminate|].
      exists t. split; [exact Ht|]. split; [exact Htext|]. apply Hv. discriminate.
Defined.

(** At the ceiling (two sheets, ceiling two) the batch runs; above it
    (ceiling one) it is refused before any record is logged. *)
Lemma sheet_count_ceiling_witness :
  (exists files : gmap string bytes,
     @split_excel_by_sheets_simple (ceiling 2) (library report []) [] "Report.xlsx"
     = (Ok (files, if decide (files = ∅) then Some no_sheets_processed else None),
        selection_log "Report.xlsx" report
          ++ @loop_log (library report []) report (visible_sheets report))
     /\ no_sheets_processed <> @too_many_sheets (ceiling 2) (length (sheetnames report)))
  /\ @split_excel_by_sheets_simple (ceiling 1) (library report []) [] "Report.xlsx"
     = (Ok (∅, Some (@too_many_sheets (ceiling 1) (length (sheetnames report)))), []).
Proof.
  split.
  - apply (@sheet_count_ceiling (ceiling 2) (library report []) [] "Report.xlsx" report);
      [vm_compute; reflexivity | simpl; lia].
  - apply (@sheet_count_ceiling (ceiling 1) (library report []) [] "Report.xlsx" report);
      [vm_compute; reflexivity | simpl; lia].
Defined.

(** C3. The code gives the two cases one outcome: a workbook without
    visible sheets and a workbook whose only visible sheet cannot be
    encoded get the same answer from the splitting function, and the
    endpoint answers the workbook without visible sheets with that message
    and status 500, not with the answer of its own that says that no sheet
    was found. *)
Theorem empty_batch_outcomes_coincide :
  visible_sheets all_hidden = []
  /\ visible_sheets report = ["Summary"%string]
  /\ @extracted (library report ["Summary"%string]) report "Summary" = false
  /\ fst (@split_excel_by_sheets_simple (ceiling 100) (library all_hidden []) []
            "Report.xlsx")
     = fst (@split_excel_by_sheets_simple (ceiling 100)
              (library report ["Summary"%string]) [] "Report.xlsx")
  /\ @split_excel (ceiling 100) (library all_hidden []) "50.0" "xlsx, xls, xlsm, xlsb"
       (Upload.named "Report.xlsx")
     = (Json (Some no_sheets_processed), 500).
Proof. split_and!; by vm_compute. Qed.


(** C7. A sheet with one text cell whose text starts with an equals sign:
    the batch gives one blob, the decoder reads back what the encoder
    wrote, and the cell that it finds in the blob is a formula cell, where
    the source cell is a text cell. *)
Theorem text_with_equals_sign_becomes_formula :
  visible_sheets notebook = ["Notes"%string]
  /\ value_at notes (1, 1)%positive = VText "=1+1"
  /\ @faithful_codec archive
  /\ fst (@split_excel_by_sheets_simple (ceiling 100) archive [] "Book.xlsx")
     = Ok ({[ "Book_Notes.xlsx"%string := [Byte.x50; Byte.x4b] ]}, None)
  /\ exists ws',
      @load_workbook archive [Byte.x50; Byte.x4b] = Ok {| worksheets := [ws'] |}
      /\ title ws' = "Notes"%string
      /\ value_at ws' (1, 1)%positive = VFormula "1+1"
      /\ value_at ws' (1, 1)%positive <> value_at notes (1, 1)%positive.
Proof.
  split_and!; [by vm_compute | by vm_compute | exact archive_faithful | by vm_compute |].
  eexists. split_and!; [by vm_compute | by vm_compute | by vm_compute |].
  vm_compute. discriminate.
Qed.

(** C8, as stated, fails: two visible sheets, no failure, one entry; and
    that entry stands under the name that the name of the hidden sheet
    gives. *)
Lemma colliding_names_lose_an_entry :
  visible_sheets masked = ["a<"; "a>"]%string
  /\ hidden_sheets masked = ["a|"%string]
  /\ Forall (fun n => @extracted (library masked []) masked n = true) (visible_sheets masked)
  /\ exists files log,
      @split_excel_by_sheets_simple (ceiling 100) (library masked []) [] "Book.xlsx"
      = (Ok (files, None), log)
      /\ size files = 1%nat
      /\ is_Some (files !! output_filename "Book" "a|").
Proof.
  split_and!; [by vm_compute | by vm_compute | |].
  - repeat constructor; by vm_compute.
  - eexists _, _. split; [vm_compute; reflexivity|]. split; [by vm_compute|].
    eexists. vm_compute. reflexivity.
Qed.

(** Two visible sheets around a hidden one: two entries, none under the
    name that the name of the hidden sheet gives. *)
Lemma visible_sheets_yield_entries_witness :
  exists files err log,
    @split_excel_by_sheets_simple (ceiling 100) (library mixed []) [] "Book.xlsx"
    = (Ok (files, err), log)
    /\ size files = 2%nat
    /\ files !! "Book_Archive.xlsx"%string = None.
Proof.
  destruct (@visible_sheets_yield_entries (ceiling 100) (library mixed []) []
              "Book.xlsx" mixed) as (files & err & log & Hrun & _ & Hsize & Hhidden).
  - vm_compute. reflexivity.
  - simpl. lia.
  - repeat constructor; by vm_compute.
  - exists files, err, log. split; [exact Hrun|]. split.
    + apply Hsize. apply (bool_decide_unpack _). by vm_compute.
    + destruct (files !! "Book_Archive.xlsx"%string) as [b|] eqn:Hk; [|reflexivity].
      exfalso.
      destruct (Hhidden (sheet "Archive" hidden [ ((1, 1)%positive, plain (VText "b")) ] []))
        as (n & Hn & Hsan).
      * right. by left.
      * discriminate.
      * exists b. exact Hk.
      * change (visible_sheets mixed) with ["Q1"; "Q2"]%string in Hn.
        repeat (apply elem_of_cons in Hn as [->|Hn]; [vm_compute in Hsan; congruence|]).
        apply elem_of_nil in Hn. destruct Hn.
Defined.

Lemma colliding_names_last_wins_witness :
  exists files log,
    @split_excel_by_sheets_simple (ceiling 100) (library twins []) [] "Book.xlsx"
    = (Ok (files, None), log)
    /\ output_filename "Book" "a<" = output_filename "Book" "a>"
    /\ files !! output_filename "Book" "a>" = Some (list_byte_of_string "a>")
    /\ (size files
        < length (List.filter (@extracted (library twins []) twins) (visible_sheets twins)))%nat.
Proof.
  apply (@colliding_names_last_wins (ceiling 100) (library twins []) [] "Book.xlsx" twins
           [] "a<"%string [] "a>"%string [] (list_byte_of_string "a<")
           (list_byte_of_string "a>")).
  - vm_compute. reflexivity.
  - simpl. lia.
  - reflexivity.
  - reflexivity.
  - vm_compute. reflexivity.
  - vm_compute. reflexivity.
  - intros n Hn%elem_of_nil. destruct Hn.
Defined.

End Exercised.

(** ** File names *)
Section FileNames.

Lemma rfind_from_range (c : ascii) (s : string) (i : Z) :
  Py.rfind_from c s i = -1
  \/ (i <= Py.rfind_from c s i < i + Z.of_nat (String.length s)).
Proof.
  revert i. induction s as [|a s IH]; intros i; [by left|].
  cbn [Py.rfind_from String.length]. destruct (IH (i + 1)) as [H|H].
  - rewrite H. simpl. destruct (Ascii.eqb a c); [right; lia | by left].
  - destruct (Z.leb_spec 0 (Py.rfind_from c s (i + 1))); [right; lia|].
    destruct (Ascii.eqb a c); [right; lia | by left].
Qed.

Lemma rfind_from_absent (c : ascii) (s : string) (i : Z) :
  c ∉ list_ascii_of_string s -> Py.rfind_from c s i = -1.
Proof.
  revert i. induction s as [|a s IH]; intros i Hc; [done|].
  cbn [Py.rfind_from]. simpl in Hc. apply not_elem_of_cons in Hc as [Hne Hc].
  rewrite IH by done. simpl.
  destruct (Ascii.eqb_spec a c); [by subst | done].
Qed.

Lemma rfind_from_app (c : ascii) (x y : string) (i : Z) :
  0 <= i ->
  Py.rfind_from c (x +:+ y) i =
    if 0 <=? Py.rfind_from c y (i + Z.of_nat (String.length x))
    then Py.rfind_from c y (i + Z.of_nat (String.length x))
    else Py.rfind_from c x i.
Proof.
  revert i. induction x as [|a x IH]; intros i Hi.
  - rewrite append_nil_l. cbn [String.length Py.rfind_from].
    replace (i + Z.of_nat 0) with i by lia.
    destruct (rfind_from_range c y i) as [H|H]; [by rewrite H|].
    destruct (Z.leb_spec 0 (Py.rfind_from c y i)); [done | lia].
  - rewrite append_cons. cbn [Py.rfind_from String.length]. rewrite IH by lia.
    replace (i + 1 + Z.of_nat (String.length x))
      with (i + Z.of_nat (S (String.length x))) by lia.
    destruct (0 <=? Py.rfind_from c y _) eqn:E; [by rewrite E | done].
Qed.

(** The last occurrence, when the text after it holds no other. *)
Lemma rfind_last (c : ascii) (x y : string) :
  c ∉ list_ascii_of_string y ->
  Py.rfind c (x +:+ String c y) = Z.of_nat (String.length x).
Proof.
  intros Hc. unfold Py.rfind. rewrite rfind_from_app by lia.
  cbn [Py.rfind_from]. rewrite rfind_from_absent by done. simpl.
  rewrite Ascii.eqb_refl.
  destruct (Z.leb_spec 0 (0 + Z.of_nat (String.length x))); lia.
Qed.

Lemma len_slice_to (s : string) (k : Z) :
  Py.len (Py.slice_to s k)
  = if k <? 0 then Z.max 0 (Py.len s + k) else Z.min k (Py.len s).
Proof.
  unfold Py.slice_to, Py.len. rewrite substring_length.
  destruct (Z.ltb_spec k 0); lia.
Qed.

(** The two parts that [splitext] returns make up the path. *)
Lemma splitext_join (p : string) : fst (Py.splitext p) +:+ snd (Py.splitext p) = p.
Proof.
  unfold Py.splitext.
  destruct (Z.ltb_spec (Py.rfind "/" p) (Py.rfind "." p)) as [Hlt|_];
    [|by rewrite append_nil_r].
  destruct (Py.has_name_before_dot _ _ _); [|by rewrite append_nil_r].
  cbn [andb fst snd]. unfold Py.slice_to, Py.slice_from, Py.len.
  pose proof (rfind_from_range "/" p 0) as Hs. pose proof (rfind_from_range "." p 0) as Hd.
  unfold Py.rfind in *.
  destruct (Z.ltb_spec (Py.rfind_from "." p 0) 0); [lia|].
  replace (Z.to_nat (Z.min (Py.rfind_from "." p 0) (Z.of_nat (String.length p))))
    with (Z.to_nat (Py.rfind_from "." p 0)) by lia.
  apply substring_split. lia.
Qed.

Lemma splitext_chars (p : string) (c : ascii) :
  c ∈ list_ascii_of_string (fst (Py.splitext p))
  \/ c ∈ list_ascii_of_string (snd (Py.splitext p)) ->
  c ∈ list_ascii_of_string p.
Proof.
  intros H. rewrite <- (splitext_join p), chars_append. by apply elem_of_app.
Qed.

Lemma splitext_len (p : string) :
  Py.len (fst (Py.splitext p)) + Py.len (snd (Py.splitext p)) = Py.len p.
Proof.
  pose proof (f_equal String.length (splitext_join p)) as H.
  rewrite length_append in H. unfold Py.len. lia.
Qed.

Lemma re_sub_invalid_chars (filename : string) (c : ascii) :
  c ∈ list_ascii_of_string (re_sub_invalid filename) -> Py.char_in c invalid_chars = false.
Proof.
  induction filename as [|a s IH]; simpl; [by intros ?%elem_of_nil|].
  intros [->|H]%elem_of_cons; [|by apply IH].
  by destruct (Py.char_in a invalid_chars) eqn:Ha.
Qed.

Lemma re_sub_invalid_length (filename : string) :
  String.length (re_sub_invalid filename) = String.length filename.
Proof. induction filename as [|a s IH]; simpl; [done | by rewrite IH]. Qed.

Lemma re_sub_invalid_id (filename : string) :
  (forall c, c ∈ list_ascii_of_string filename -> Py.char_in c invalid_chars = false) ->
  re_sub_invalid filename = filename.
Proof.
  induction filename as [|a s IH]; simpl; [done|]. intros H.
  rewrite (H a) by (by left). rewrite IH; [done|]. intros c Hc. apply H. by right.
Qed.

(** Names that are short once replaced and stripped are not cut. *)
Lemma sanitize_filename_short (filename : string) :
  let sanitized := Py.strip ". " (re_sub_invalid filename) in
  (String.length sanitized <= 100)%nat ->
  sanitize_filename filename
  = if String.eqb sanitized EmptyString then "unnamed"%string else sanitized.
Proof.
  intros sanitized Hlen. unfold sanitize_filename. fold sanitized.
  destruct (Z.ltb_spec 100 (Py.len sanitized)) as [H|_]; [unfold Py.len in H; lia | done].
Qed.

(** Longer names are cut before the extension. *)
Lemma sanitize_filename_long (filename : string) :
  let sanitized := Py.strip ". " (re_sub_invalid filename) in
  let name := fst (Py.splitext sanitized) in
  let ext := snd (Py.splitext sanitized) in
  (100 < String.length sanitized)%nat ->
  sanitize_filename filename = Py.slice_to name (100 - Py.len ext) +:+ ext
  /\ Py.len (Py.slice_to name (100 - Py.len ext) +:+ ext)
     = if Py.len ext <=? 100 then 100 else Z.max (Py.len ext) (Py.len sanitized - (Py.len ext - 100)).
Proof.
  intros sanitized name ext Hlen.
  assert (Hcut : Py.len (Py.slice_to name (100 - Py.len ext) +:+ ext)
     = if Py.len ext <=? 100 then 100
       else Z.max (Py.len ext) (Py.len sanitized - (Py.len ext - 100))).
  { pose proof (splitext_len sanitized) as Hsum. fold name ext in Hsum.
    pose proof (len_slice_to name (100 - Py.len ext)) as Hs.
    unfold Py.len in *. rewrite length_append.
    destruct (Z.leb_spec (Z.of_nat (String.length ext)) 100);
      destruct (Z.ltb_spec (100 - Z.of_nat (String.length ext)) 0); lia. }
  split; [|done].
  unfold sanitize_filename. fold sanitized.
  destruct (Z.ltb_spec 100 (Py.len sanitized)) as [_|H]; [|unfold Py.len in H; lia].
  destruct (Py.splitext sanitized) as [n e] eqn:Hsp. subst name ext. cbn [fst snd] in *.
  destruct (String.eqb_spec (Py.slice_to n (100 - Py.len e) +:+ e) EmptyString) as [He|]; [|done].
  rewrite He in Hcut. unfold Py.len in Hcut. simpl in Hcut.
  destruct (Z.leb_spec (Z.of_nat (String.length e)) 100); lia.
Qed.

End FileNames.

(** ** Properties of the file-name helpers *)
Section FileNameProperties.

Lemma strip_chars (cs s : string) (c : ascii) :
  c ∈ list_ascii_of_string (Py.strip cs s) -> c ∈ list_ascii_of_string s.
Proof. unfold Py.strip. intros H. by apply chars_lstrip with cs, chars_rstrip with cs. Qed.

(** X1. Whatever the name, the sanitized name is not empty and holds none of
    the nine characters that the pattern replaces. *)
Theorem sanitize_filename_safe (filename : string) :
  sanitize_filename filename <> EmptyString
  /\ forall c, c ∈ list_ascii_of_string (sanitize_filename filename) ->
               Py.char_in c invalid_chars = false.
Proof.
  set (sanitized := Py.strip ". " (re_sub_invalid filename)).
  assert (Hs : forall c, c ∈ list_ascii_of_string sanitized ->
                         Py.char_in c invalid_chars = false).
  { intros c Hc. by apply re_sub_invalid_chars with filename, strip_chars with ". "%string. }
  destruct (Nat.le_gt_cases (String.length sanitized) 100) as [Hlen|Hlen].
  - rewrite sanitize_filename_short by done. fold sanitized.
    destruct (String.eqb_spec sanitized EmptyString) as [He|Hne]; [|done].
    split; [done|]. intros c Hc. simpl in Hc.
    repeat (apply elem_of_cons in Hc as [->|Hc]; [done|]). by apply elem_of_nil in Hc.
  - destruct (sanitize_filename_long filename Hlen) as [-> Hcut]. fold sanitized in Hcut |- *.
    split.
    + intros He. rewrite He in Hcut. unfold Py.len in Hcut. simpl in Hcut.
      destruct (Z.leb_spec (Z.of_nat (String.length (Py.splitext sanitized).2)) 100); lia.
    + intros c. rewrite chars_append. intros [Hc|Hc]%elem_of_app; apply Hs, splitext_chars.
      * left. unfold Py.slice_to in Hc. by apply chars_substring in Hc.
      * by right.
Qed.

(** X2. The sanitized name has at most 100 characters, except when what is
    left after replacing and stripping is longer than that and its
    extension alone is longer than 100 characters: then the extension is
    kept whole and the result is longer than 100 characters. *)
Theorem sanitize_filename_length (filename : string) :
  let sanitized := Py.strip ". " (re_sub_invalid filename) in
  let ext := snd (Py.splitext sanitized) in
  (String.length (sanitize_filename filename) <= 100)%nat
  <-> (String.length sanitized <= 100)%nat \/ (String.length ext <= 100)%nat.
Proof.
  intros sanitized ext.
  destruct (Nat.le_gt_cases (String.length sanitized) 100) as [Hlen|Hlen].
  - split; [by left|]. intros _. rewrite sanitize_filename_short by done. fold sanitized.
    destruct (String.eqb sanitized EmptyString); [simpl; lia | done].
  - destruct (sanitize_filename_long filename Hlen) as [-> Hcut].
    fold sanitized in Hcut |- *. fold ext in Hcut |- *. unfold Py.len in Hcut |- *.
    destruct (Z.leb_spec (Z.of_nat (String.length ext)) 100); split; intros Hle; lia.
Qed.

(** X3. A name that holds none of the nine characters, has no dot or space
    at either end, is not empty and has at most 100 characters is returned
    as it is. *)
Theorem sanitize_filename_unchanged (filename : string) :
  (forall c, c ∈ list_ascii_of_string filename -> Py.char_in c invalid_chars = false) ->
  Py.strip ". " filename = filename ->
  filename <> EmptyString ->
  (String.length filename <= 100)%nat ->
  sanitize_filename filename = filename.
Proof.
  intros Hvalid Hstrip Hne Hlen.
  rewrite sanitize_filename_short; rewrite re_sub_invalid_id, Hstrip by done; [|done].
  by destruct (String.eqb_spec filename EmptyString).
Qed.

(** X4. On names of at most 100 characters the sanitization is idempotent:
    applied to its own result it changes nothing. *)
Theorem sanitize_filename_idempotent (filename : string) :
  (String.length filename <= 100)%nat ->
  sanitize_filename (sanitize_filename filename) = sanitize_filename filename.
Proof.
  intros Hlen.
  set (sanitized := Py.strip ". " (re_sub_invalid filename)).
  assert (Hs : (String.length sanitized <= 100)%nat).
  { unfold sanitized. etrans; [apply strip_length|]. by rewrite re_sub_invalid_length. }
  rewrite (sanitize_filename_short filename) by done. fold sanitized.
  destruct (String.eqb_spec sanitized EmptyString) as [He|Hne]; [by vm_compute|].
  rewrite sanitize_filename_short.
  - rewrite re_sub_invalid_id.
    + unfold sanitized. rewrite strip_idem. fold sanitized.
      by destruct (String.eqb_spec sanitized EmptyString).
    + intros c Hc. by apply re_sub_invalid_chars with filename, strip_chars with ". "%string.
  - etrans; [apply strip_length|]. by rewrite re_sub_invalid_length.
Qed.

Lemma slice_from_suffix (x y : string) :
  Py.slice_from (x +:+ y) (Z.of_nat (String.length x)) = y.
Proof.
  unfold Py.slice_from. rewrite Nat2Z.id, length_append.
  replace (String.length x + String.length y - String.length x)%nat
    with (String.length y) by lia.
  by rewrite substring_skip, substring_all.
Qed.

Lemma allowed_file_suffix (stem e : string) :
  "."%char ∉ list_ascii_of_string e ->
  allowed_file (stem +:+ "." +:+ e)
  = existsb (String.eqb (Py.lower e)) ALLOWED_EXTENSIONS.
Proof.
  intros He. unfold allowed_file.
  change (stem +:+ "." +:+ e) with (stem +:+ String "." e).
  rewrite rfind_last by done.
  destruct (Z.leb_spec 0 (Z.of_nat (String.length stem))); [|lia]. cbn [andb].
  replace (stem +:+ String "." e) with ((stem +:+ ".") +:+ e) by (by rewrite append_assoc).
  replace (Z.of_nat (String.length stem) + 1)
    with (Z.of_nat (String.length (stem +:+ "."))) by (rewrite length_append; simpl; lia).
  by rewrite slice_from_suffix.
Qed.

(** X6. Acceptance of an upload name looks at nothing but the text after
    its last dot, compared without regard to case with the four
    extensions; a name without a dot is refused. *)
Theorem allowed_file_by_extension (stem e filename : string) :
  "."%char ∉ list_ascii_of_string e ->
  "."%char ∉ list_ascii_of_string filename ->
  (allowed_file (stem +:+ "." +:+ e) = true <-> Py.lower e ∈ ALLOWED_EXTENSIONS)
  /\ allowed_file filename = false.
Proof.
  intros He Hf. split.
  - rewrite allowed_file_suffix by done. unfold ALLOWED_EXTENSIONS. simpl.
    rewrite !orb_true_iff, !String.eqb_eq, !elem_of_cons, elem_of_nil.
    intuition congruence.
  - unfold allowed_file, Py.rfind. by rewrite rfind_from_absent.
Qed.

(** X7. Every file name that the splitting function gives to a blob is
    itself accepted as an upload name. *)
Theorem output_filename_allowed (base_name sheet_name : string) :
  allowed_file (output_filename base_name sheet_name) = true.
Proof.
  unfold output_filename.
  replace (base_name +:+ "_" +:+ sanitize_filename sheet_name +:+ ".xlsx")
    with ((base_name +:+ "_" +:+ sanitize_filename sheet_name) +:+ "." +:+ "xlsx").
  - rewrite allowed_file_suffix; [done|].
    simpl. rewrite !not_elem_of_cons. split_and!; try done. apply not_elem_of_nil.
  - by rewrite !append_assoc.
Qed.

Lemma lstrip_all (cs s : string) :
  (forall c, c ∈ list_ascii_of_string s -> Py.char_in c cs = true) ->
  Py.lstrip cs s = EmptyString.
Proof.
  induction s as [|a s IH]; simpl; [done|]. intros H.
  rewrite (H a) by (by left). apply IH. intros c Hc. apply H. by right.
Qed.

(** X5. A name made of dots and spaces only, the empty name among them,
    is replaced by the fallback name. *)
Theorem sanitize_filename_blank (filename : string) :
  (forall c, c ∈ list_ascii_of_string filename -> c = "."%char \/ c = " "%char) ->
  sanitize_filename filename = "unnamed"%string.
Proof.
  intros Hblank.
  assert (Hs : Py.strip ". " (re_sub_invalid filename) = EmptyString).
  { rewrite re_sub_invalid_id by (by intros c [-> | ->]%Hblank).
    unfold Py.strip. rewrite lstrip_all; [done|]. by intros c [-> | ->]%Hblank. }
  rewrite sanitize_filename_short; rewrite Hs; [done | simpl; lia].
Qed.

End FileNameProperties.


(** ** More on the rebuilt sheet *)
Section Rebuilt.
Context {lib : Library}.

Lemma copy_column_widths_lookup source_ws target_ws :
  let r := copy_column_widths source_ws target_ws in
  sheet_state r = sheet_state target_ws
  /\ row_dimensions r = row_dimensions target_ws
  /\ forall col,
      column_dimensions r !! col =
        match column_dimensions source_ws !! col with
        | Some d => if truthy (width d) then Some {| width := width d |}
                    else column_dimensions target_ws !! col
        | None => column_dimensions target_ws !! col
        end.
Proof.
  unfold copy_column_widths.
  apply (map_fold_weak_ind (fun r m =>
    sheet_state r = sheet_state target_ws
    /\ row_dimensions r = row_dimensions target_ws
    /\ forall col,
        column_dimensions r !! col =
          match m !! col with
          | Some d => if truthy (width d) then Some {| width := width d |}
                      else column_dimensions target_ws !! col
          | None => column_dimensions target_ws !! col
          end)).
  - split_and!; [done..|]. intros col. by rewrite lookup_empty.
  - intros i x m r Hi (Hs & Hr & IH).
    destruct (truthy (width x)) eqn:Hx; simpl; (split_and!; [done..|]); intros col;
      (destruct (decide (i = col)) as [->|Hne];
       [rewrite ?lookup_insert_eq, ?Hx; try done; specialize (IH col); by rewrite Hi in IH
       |rewrite ?lookup_insert_ne by done; apply IH]).
Qed.

Lemma copy_row_heights_lookup source_ws target_ws :
  let r := copy_row_heights source_ws target_ws in
  sheet_state r = sheet_state target_ws
  /\ column_dimensions r = column_dimensions target_ws
  /\ forall row,
      row_dimensions r !! row =
        match row_dimensions source_ws !! row with
        | Some d => if truthy (height d) then Some {| height := height d |}
                    else row_dimensions target_ws !! row
        | None => row_dimensions target_ws !! row
        end.
Proof.
  unfold copy_row_heights.
  apply (map_fold_weak_ind (fun r m =>
    sheet_state r = sheet_state target_ws
    /\ column_dimensions r = column_dimensions target_ws
    /\ forall row,
        row_dimensions r !! row =
          match m !! row with
          | Some d => if truthy (height d) then Some {| height := height d |}
                      else row_dimensions target_ws !! row
          | None => row_dimensions target_ws !! row
          end)).
  - split_and!; [done..|]. intros row. by rewrite lookup_empty.
  - intros i x m r Hi (Hs & Hr & IH).
    destruct (truthy (height x)) eqn:Hx; simpl; (split_and!; [done..|]); intros row;
      (destruct (decide (i = row)) as [->|Hne];
       [rewrite ?lookup_insert_eq, ?Hx; try done; specialize (IH row); by rewrite Hi in IH
       |rewrite ?lookup_insert_ne by done; apply IH]).
Qed.

Lemma copy_sheet_frame source_ws sheet_name :
  let r := fst (copy_sheet source_ws sheet_name) in
  sheet_state r = visible
  /\ column_dimensions r
     = column_dimensions (copy_column_widths source_ws (create_sheet sheet_name))
  /\ row_dimensions r
     = row_dimensions (copy_row_heights source_ws
                         (copy_column_widths source_ws (create_sheet sheet_name))).
Proof.
  unfold copy_sheet.
  set (t0 := create_sheet sheet_name).
  set (t1 := copy_column_widths source_ws t0).
  set (t2 := copy_row_heights source_ws t1).
  destruct (copy_column_widths_lookup source_ws t0) as (Hs1 & Hr1 & _).
  destruct (copy_row_heights_lookup source_ws t1) as (Hs2 & Hc2 & _).
  fold t1 in Hs1, Hr1. fold t2 in Hs2, Hc2.
  pose proof (copy_entries_frame (concat (iter_rows source_ws)) t2) as Hframe.
  rewrite <- copy_cells_flat in Hframe. cbn zeta in Hframe.
  destruct (copy_cells source_ws t2) as [t3 [[[]|e] l]]; cbn [fst] in *;
    destruct Hframe as (_ & Hs3 & Hc3 & Hr3 & _).
  - destruct (copy_merged_cells_spec source_ws t3) as (_ & Hs4 & Hc4 & Hr4 & _).
    split_and!.
    + by rewrite Hs4, Hs3, Hs2, Hs1.
    + by rewrite Hc4, Hc3, Hc2.
    + by rewrite Hr4, Hr3.
  - split_and!.
    + by rewrite Hs3, Hs2, Hs1.
    + by rewrite Hc3, Hc2.
    + done.
Qed.

(** X8. The rebuilt sheet has a column width exactly for the columns whose
    source width is set and not zero, and that width is the source's; the
    same holds for the row heights.  Columns and rows without an explicit
    size have no entry on the target. *)
Theorem dimensions_copied_when_set source_ws sheet_name :
  let r := fst (copy_sheet source_ws sheet_name) in
  (forall col,
     column_dimensions r !! col =
       match column_dimensions source_ws !! col with
       | Some d => if truthy (width d) then Some {| width := width d |} else None
       | None => None
       end)
  /\ (forall row,
        row_dimensions r !! row =
          match row_dimensions source_ws !! row with
          | Some d => if truthy (height d) then Some {| height := height d |} else None
          | None => None
          end).
Proof.
  destruct (copy_sheet_frame source_ws sheet_name) as (_ & Hc & Hr).
  cbn zeta. rewrite Hc, Hr.
  destruct (copy_column_widths_lookup source_ws (create_sheet sheet_name)) as (_ & Hr1 & Hc1).
  destruct (copy_row_heights_lookup source_ws
              (copy_column_widths source_ws (create_sheet sheet_name))) as (_ & _ & Hr2).
  split.
  - intros col. rewrite Hc1. simpl. rewrite lookup_empty.
    by destruct (column_dimensions source_ws !! col).
  - intros row. rewrite Hr2, Hr1. simpl. rewrite lookup_empty.
    by destruct (row_dimensions source_ws !! row).
Qed.

Lemma copy_merged_cells_is_Some source_ws target_ws rc :
  is_Some (cells target_ws !! rc) ->
  is_Some (cells (copy_merged_cells source_ws target_ws) !! rc).
Proof.
  intros Hrc. unfold copy_merged_cells.
  apply (set_fold_ind_L (fun r _ => is_Some (cells r !! rc))); [done|].
  intros x X r _ IH. rewrite merge_cells_lookup.
  repeat case_decide; [done | done | exact IH].
Qed.

(** X9. When a sheet is extracted, the sheet that is encoded carries the
    name asked for, is visible whatever the state of the source sheet, has
    the merged ranges of the source, and has a cell at every coordinate of
    the rectangle that [iter_rows] walks, from the first row and column to
    the last ones that hold a cell in the source, also where the source has
    no cell. *)
Theorem rebuilt_sheet_shape wb sheet_name blob :
  fst (extract wb sheet_name) = Ok blob ->
  exists source_ws,
    getitem wb sheet_name = Ok source_ws
    /\ save {| worksheets := [fst (copy_sheet source_ws sheet_name)] |} = Ok blob
    /\ title (fst (copy_sheet source_ws sheet_name)) = sheet_name
    /\ sheet_state (fst (copy_sheet source_ws sheet_name)) = visible
    /\ merged_cells (fst (copy_sheet source_ws sheet_name)) = merged_cells source_ws
    /\ forall row column,
         cells source_ws <> ∅ ->
         (row <= max_row source_ws)%positive ->
         (column <= max_column source_ws)%positive ->
         is_Some (cells (fst (copy_sheet source_ws sheet_name)) !! (row, column)).
Proof.
  intros Hx.
  destruct (extract_ok_inv _ _ _ Hx) as (source_ws & log & Hg & Hcs & Hsave).
  destruct (copy_sheet_ok _ _ _ _ Hcs) as (Heq & log' & Hcells).
  destruct (copy_sheet_frame source_ws sheet_name) as (Hstate & _).
  destruct (sized_sheet_frame source_ws sheet_name) as (Ht0 & Hc0 & Hm0).
  cbn zeta in Hstate, Ht0, Hc0, Hm0.
  rewrite copy_cells_flat in Hcells.
  pose proof (copy_entries_frame (concat (iter_rows source_ws))
                (copy_row_heights source_ws
                   (copy_column_widths source_ws (create_sheet sheet_name)))) as Hframe.
  cbn zeta in Hframe. rewrite Hcells in Hframe. cbn [fst] in Hframe.
  destruct Hframe as (Ht1 & _ & _ & _ & Hm1).
  destruct (copy_merged_cells_spec source_ws (cells_copied source_ws sheet_name))
    as (Ht2 & _ & _ & _ & Hm2 & _).
  exists source_ws. split_and!; [done | done | | done | |].
  - by rewrite Heq, Ht2, Ht1, Ht0.
  - rewrite Heq, Hm2, Hm1, Hm0. set_solver.
  - intros row column Hne Hrow Hcol. rewrite Heq. apply copy_merged_cells_is_Some.
    destruct (copy_entries_lookup _ _ _ _ (NoDup_iter_rows source_ws) Hcells) as [Hin _].
    destruct (Hin (row, column) (get_cell source_ws (row, column)))
      as (tc & l & _ & Hl); [|by exists tc].
    by apply elem_of_iter_rows.
Qed.

(** X10. A source cell without a style record gets no style call: the
    target cell is the new cell with the value assigned, so its font, fill,
    border and alignment are the defaults of the new workbook, whatever the
    source cell shows for them, and nothing is logged for it.  It is still
    that cell on the encoded sheet when its coordinate lies in no merged
    range. *)
Theorem unstyled_cell_keeps_target_defaults wb sheet_name blob :
  fst (extract wb sheet_name) = Ok blob ->
  exists source_ws,
    getitem wb sheet_name = Ok source_ws
    /\ save {| worksheets := [fst (copy_sheet source_ws sheet_name)] |} = Ok blob
    /\ forall rc cell,
         cells source_ws !! rc = Some cell ->
         has_style cell = false ->
         exists assigned,
           copy_cell cell new_cell = (Ok assigned, [])
           /\ bind_value (value cell) new_cell = Ok assigned
           /\ cells (cells_copied source_ws sheet_name) !! rc = Some assigned
           /\ font assigned = default_font /\ fill assigned = default_fill
           /\ border assigned = default_border /\ alignment assigned = default_alignment
           /\ ((forall x, x ∈ merged_cells source_ws -> rc ∉ range_coordinates x) ->
               cells (fst (copy_sheet source_ws sheet_name)) !! rc = Some assigned).
Proof.
  intros Hx.
  destruct (extract_ok_inv _ _ _ Hx) as (source_ws & log & Hg & Hcs & Hsave).
  destruct (copy_sheet_ok _ _ _ _ Hcs) as (Heq & _).
  exists source_ws. split_and!; [done..|].
  intros rc cell Hcell Hstyle.
  destruct (cells_copied_lookup _ _ _ _ rc cell Hcs Hcell) as (tc & l & Hcc & Hl).
  destruct (copy_cell_inv _ _ _ _ Hcc) as (assigned & Hb & Htc).
  rewrite Hstyle in Htc. subst tc.
  destruct (bind_value_style _ _ _ Hb) as (Hf & Hfi & Hbo & Hal).
  exists assigned. split_and!; try done.
  - unfold copy_cell, bind, call. by rewrite Hb, Hstyle.
  - intros Hcov. rewrite Heq.
    destruct (copy_merged_cells_spec source_ws (cells_copied source_ws sheet_name))
      as (_ & _ & _ & _ & _ & Hkeep).
    apply Hkeep; [done|]. intros x Hin Hrc%elem_of_covered. by apply (Hcov x).
Qed.

(** X11. When the five style calls of the library answer for a cell with
    a style record, the target cell holds the value as its assignment left
    it and the five answers, and nothing is logged for the cell.  It is
    still that cell on the encoded sheet when its coordinate lies in no
    merged range. *)
Theorem styled_cell_copied wb sheet_name blob :
  fst (extract wb sheet_name) = Ok blob ->
  exists source_ws,
    getitem wb sheet_name = Ok source_ws
    /\ save {| worksheets := [fst (copy_sheet source_ws sheet_name)] |} = Ok blob
    /\ forall rc cell f fi b a n,
         cells source_ws !! rc = Some cell ->
         has_style cell = true ->
         font_copy (font cell) = Ok f ->
         fill_copy (fill cell) = Ok fi ->
         border_copy (border cell) = Ok b ->
         alignment_copy (alignment cell) = Ok a ->
         number_format_assign (number_format cell) = Ok n ->
         exists assigned target_cell,
           copy_cell cell new_cell = (Ok target_cell, [])
           /\ bind_value (value cell) new_cell = Ok assigned
           /\ cells (cells_copied source_ws sheet_name) !! rc = Some target_cell
           /\ value target_cell = value assigned
           /\ font target_cell = f /\ fill target_cell = fi /\ border target_cell = b
           /\ alignment target_cell = a /\ number_format target_cell = n
           /\ ((forall x, x ∈ merged_cells source_ws -> rc ∉ range_coordinates x) ->
               cells (fst (copy_sheet source_ws sheet_name)) !! rc = Some target_cell).
Proof.
  intros Hx.
  destruct (extract_ok_inv _ _ _ Hx) as (source_ws & log & Hg & Hcs & Hsave).
  destruct (copy_sheet_ok _ _ _ _ Hcs) as (Heq & _).
  exists source_ws. split_and!; [done..|].
  intros rc cell f fi b a n Hcell Hstyle Hf Hfi Hb Ha Hn.
  destruct (cells_copied_lookup _ _ _ _ rc cell Hcs Hcell) as (tc & l & Hcc & Hl).
  destruct (copy_cell_inv _ _ _ _ Hcc) as (assigned & Hbind & Htc).
  rewrite Hstyle in Htc.
  assert (Hblock : copy_style_attributes cell assigned
                   = (Ok tt, set_number_format n (set_alignment a (set_border b
                               (set_fill fi (set_font f assigned)))))).
  { unfold copy_style_attributes, assign. by rewrite Hf, Hfi, Hb, Ha, Hn. }
  rewrite Hblock in Htc. cbn [snd] in Htc. subst tc.
  eexists assigned, _. split_and!; try done.
  - unfold copy_cell, bind, call. by rewrite Hbind, Hstyle, Hblock.
  - intros Hcov. rewrite Heq.
    destruct (copy_merged_cells_spec source_ws (cells_copied source_ws sheet_name))
      as (_ & _ & _ & _ & _ & Hkeep).
    apply Hkeep; [done|]. intros x Hin Hrc%elem_of_covered. by apply (Hcov x).
Qed.

End Rebuilt.


(** ** The outcomes of the splitting function *)
Section Outcomes.
Context {cfg : Config} {lib : Library}.

(** The three ways through the function. *)
Lemma split_cases file_bytes original_filename :
  (exists e,
     load_workbook file_bytes = Raise e
     /\ split_excel_by_sheets_simple file_bytes original_filename
        = (Ok (∅, Some ("Error processing Excel file: " +:+ e)),
           [(ERROR, "Error splitting Excel file: " +:+ e)]))
  \/ (exists wb,
        load_workbook file_bytes = Ok wb
        /\ MAX_SHEETS < Z.of_nat (length (sheetnames wb))
        /\ split_excel_by_sheets_simple file_bytes original_filename
           = (Ok (∅, Some (too_many_sheets (length (sheetnames wb)))), []))
  \/ (exists wb,
        load_workbook file_bytes = Ok wb
        /\ Z.of_nat (length (sheetnames wb)) <= MAX_SHEETS
        /\ let files := foldl (step wb (fst (Py.splitext original_filename))) ∅
                          (visible_sheets wb) in
           split_excel_by_sheets_simple file_bytes original_filename
           = (Ok (if decide (files = ∅) then (∅, Some no_sheets_processed)
                  else (files, None)),
              selection_log original_filename wb ++ loop_log wb (visible_sheets wb))).
Proof.
  destruct (load_workbook file_bytes) as [wb|e] eqn:Hload.
  - destruct (Z.lt_ge_cases MAX_SHEETS (Z.of_nat (length (sheetnames wb)))) as [Hmax|Hmax].
    + right. left. exists wb. split_and!; [done..|].
      unfold split_excel_by_sheets_simple. rewrite Hload, bind_call_ok.
      destruct (Z.ltb_spec MAX_SHEETS (Z.of_nat (length (sheetnames wb)))); [done | lia].
    + right. right. exists wb. split_and!; [done..|]. by apply split_loaded.
  - left. exists e. split; [done|].
    unfold split_excel_by_sheets_simple. by rewrite Hload.
Qed.

Lemma visible_sheets_length wb :
  (length (visible_sheets wb) <= length (sheetnames wb))%nat.
Proof. unfold visible_sheets. apply List.filter_length_le. Qed.

(** X12. Whatever the library does, the function raises nothing, and its
    two results agree: the error message is absent exactly when the mapping
    is not empty. *)
Theorem split_outcome_invariant file_bytes original_filename :
  exists files err log,
    split_excel_by_sheets_simple file_bytes original_filename = (Ok (files, err), log)
    /\ (err = None <-> files <> ∅).
Proof.
  destruct (split_cases file_bytes original_filename)
    as [(e & _ & ->)|[(wb & _ & _ & ->)|(wb & _ & _ & H)]].
  - eexists _, _, _. split; [done|]. split; [done | by intros []].
  - eexists _, _, _. split; [done|]. split; [done | by intros []].
  - cbn zeta in H. rewrite H.
    destruct (decide (foldl _ _ _ = ∅)) as [Heq|Hne];
      eexists _, _, _; (split; [done|]); split; done.
Qed.

(** X13. The answer [Error processing Excel file] stands for a workbook
    that did not load, and for nothing else: no failure of the selection or
    of a sheet ends in it. *)
Theorem generic_error_iff_load_fails file_bytes original_filename :
  (exists e, fst (split_excel_by_sheets_simple file_bytes original_filename)
             = Ok (∅, Some ("Error processing Excel file: " +:+ e)))
  <-> (exists e, load_workbook file_bytes = Raise e).
Proof.
  destruct (split_cases file_bytes original_filename)
    as [(e & Hload & ->)|[(wb & Hload & _ & ->)|(wb & Hload & _ & H)]].
  - split; intros _; by exists e.
  - rewrite Hload. split; intros [e He]; [|done].
    unfold too_many_sheets in He. simpl in He. discriminate.
  - cbn zeta in H. rewrite H, Hload. split; intros [e He]; [|done].
    destruct (decide (foldl _ _ _ = ∅)); simpl in He; discriminate.
Qed.

(** X14. The mapping never has more entries than the ceiling on the sheet
    count. *)
Theorem output_count_bounded file_bytes original_filename files err :
  fst (split_excel_by_sheets_simple file_bytes original_filename) = Ok (files, err) ->
  Z.of_nat (size files) <= Z.max 0 MAX_SHEETS.
Proof.
  destruct (split_cases file_bytes original_filename)
    as [(e & _ & ->)|[(wb & _ & _ & ->)|(wb & _ & Hmax & H)]].
  - intros [= <- _]. rewrite map_size_empty. lia.
  - intros [= <- _]. rewrite map_size_empty. lia.
  - cbn zeta in H. rewrite H. cbn [fst].
    pose proof (foldl_step_size_le wb (fst (Py.splitext original_filename))
                  (visible_sheets wb) ∅) as Hle.
    rewrite map_size_empty in Hle.
    pose proof (List.filter_length_le (extracted wb) (visible_sheets wb)) as Hf.
    pose proof (visible_sheets_length wb) as Hv.
    destruct (decide (foldl _ _ _ = ∅)); intros [= <- _];
      [rewrite map_size_empty|]; lia.
Qed.

Lemma filter_titles (f : string -> bool) (P : Worksheet -> Prop)
    `{!forall ws, Decision (P ws)} (l : list Worksheet) :
  (forall ws, ws ∈ l -> f (title ws) = bool_decide (P ws)) ->
  List.filter f (map title l) = title <$> filter P l.
Proof.
  induction l as [|ws l IH]; intros Hf; [done|].
  cbn [map List.filter]. rewrite (Hf ws) by (by left).
  rewrite filter_cons. rewrite IH by (intros; apply Hf; by right).
  by destruct (decide (P ws)); [rewrite bool_decide_eq_true_2 | rewrite bool_decide_eq_false_2].
Qed.

(** X15. When the titles of the workbook are unique, the selection never
    raises, logs nothing, and sorts the sheets by their state alone: the
    titles of the visible sheets in workbook order, then the titles of all
    the others, hidden and very hidden alike. *)
Theorem select_by_state wb :
  NoDup (sheetnames wb) ->
  select wb
  = (Ok (title <$> filter (fun ws => sheet_state ws = visible) (worksheets wb),
         title <$> filter (fun ws => sheet_state ws <> visible) (worksheets wb)), []).
Proof.
  intros Hnd. rewrite select_spec. unfold visible_sheets, hidden_sheets, sheetnames.
  assert (Hv : forall ws, ws ∈ worksheets wb ->
                 visible_name wb (title ws) = bool_decide (sheet_state ws = visible)).
  { intros ws Hin. unfold visible_name.
    destruct (getitem_sheetname wb (title ws)) as (ws' & -> & Ht & Hin').
    { by apply (list_elem_of_fmap_2 title). }
    by rewrite (unique_title wb ws' ws). }
  rewrite (filter_titles _ (fun ws => sheet_state ws = visible)) by done.
  rewrite (filter_titles _ (fun ws => sheet_state ws <> visible)); [done|].
  intros ws Hin. rewrite Hv by done.
  by destruct (decide (sheet_state ws = visible));
    [rewrite bool_decide_eq_true_2, bool_decide_eq_false_2 by tauto
    |rewrite bool_decide_eq_false_2, bool_decide_eq_true_2].
Qed.

End Outcomes.


(** ** The answers of the endpoint *)
Section Answers.
Context {cfg : Config} {lib : Library}.
Variables (size_limit_text allowed_listing : string).

Lemma validate_excel_file_fst file_bytes :
  fst (validate_excel_file file_bytes)
  = match load_workbook_read_only file_bytes with
    | Ok _ => Ok (true, None)
    | Raise e => Ok (false, Some ("Invalid Excel file: " +:+ e))
    end.
Proof.
  unfold validate_excel_file. by destruct (load_workbook_read_only file_bytes).
Qed.

(** When the loader of the splitting function raises, the function answers
    with the message of the loader behind its own words. *)
Lemma split_load_error file_bytes original_filename e :
  load_workbook file_bytes = Raise e ->
  fst (split_excel_by_sheets_simple file_bytes original_filename)
  = Ok (∅, Some ("Error processing Excel file: " +:+ e)).
Proof.
  intros Hload.
  destruct (split_cases file_bytes original_filename)
    as [(e' & Hload' & ->)|[(wb & Hload' & _)|(wb & Hload' & _)]];
    rewrite Hload in Hload'; [by injection Hload' as <- | done..].
Qed.

(** The error messages of the splitting function are never empty. *)
Lemma split_error_truthy file_bytes original_filename files e :
  fst (split_excel_by_sheets_simple file_bytes original_filename) = Ok (files, Some e) ->
  truthy_message (Some e) = true.
Proof.
  destruct (split_cases file_bytes original_filename)
    as [(e' & _ & ->)|[(wb & _ & _ & ->)|(wb & _ & _ & H)]].
  - by intros [= _ <-].
  - by intros [= _ <-].
  - cbn zeta in H. rewrite H. by destruct (decide (foldl _ _ _ = ∅)); intros [= _ <-].
Qed.

(** X16. The endpoint never gives the answer [No sheets found in Excel
    file]: the splitting function reports every empty mapping with an error
    message, which is answered before that test. *)
Theorem no_sheets_found_is_unreachable request_files :
  split_excel size_limit_text allowed_listing request_files
  <> (Json (Some "No sheets found in Excel file"%string), 400).
Proof.
  unfold split_excel, unexpected_error.
  destruct request_files as [| |[file|]]; try discriminate.
  destruct (String.eqb _ _); [discriminate|].
  destruct (negb _); [simpl; discriminate|].
  destruct (read file) as [file_bytes|]; [|discriminate].
  rewrite validate_excel_file_fst.
  destruct (load_workbook_read_only file_bytes); [|simpl; discriminate]. cbn [negb].
  destruct (split_outcome_invariant file_bytes (filename file))
    as (files & err & log & Hrun & Hinv).
  pose proof (split_error_truthy file_bytes (filename file) files) as Htruthy.
  rewrite Hrun in Htruthy |- *. cbn [fst] in Htruthy |- *.
  destruct err as [e|].
  - rewrite (Htruthy e) by done. discriminate.
  - cbn [truthy_message]. rewrite decide_False by (by apply Hinv).
    unfold create_zip_response.
    destruct (map_to_list files) as [|[k b] [|? ?]]; discriminate.
Qed.

(** X17. A named upload whose name is refused by the extension check is
    answered with status 400 whatever its content and whatever the library
    would do with it. *)
Theorem refused_extension_is_400 file :
  filename file <> EmptyString ->
  allowed_file (filename file) = false ->
  split_excel size_limit_text allowed_listing (Files (Some file))
  = (Json (Some ("Invalid file type. Allowed types: " +:+ allowed_listing)), 400).
Proof.
  intros Hne Hext. unfold split_excel.
  destruct (String.eqb_spec (filename file) EmptyString); [done|]. by rewrite Hext.
Qed.

(** X18. An upload that the read-only loader of the validation rejects is
    answered with status 400 and the message of that loader; the splitting
    function is not called. *)
Theorem rejected_container_is_400 file file_bytes e :
  filename file <> EmptyString ->
  allowed_file (filename file) = true ->
  read file = Ok file_bytes ->
  load_workbook_read_only file_bytes = Raise e ->
  split_excel size_limit_text allowed_listing (Files (Some file))
  = (Json (Some ("Invalid Excel file: " +:+ e)), 400).
Proof.
  intros Hne Hext Hread Hload. unfold split_excel.
  destruct (String.eqb_spec (filename file) EmptyString); [done|].
  by rewrite Hext, Hread, validate_excel_file_fst, Hload.
Qed.

(** X19. Once an upload is validated, every failure that the splitting
    function reports reaches the client with status 500 and the message of
    the function; so does the failure of the loader of the splitting
    function on bytes that the read-only loader of the validation let
    through. *)
Theorem failed_split_is_500 file file_bytes :
  filename file <> EmptyString ->
  allowed_file (filename file) = true ->
  read file = Ok file_bytes ->
  fst (validate_excel_file file_bytes) = Ok (true, None) ->
  (forall files e,
     fst (split_excel_by_sheets_simple file_bytes (filename file)) = Ok (files, Some e) ->
     split_excel size_limit_text allowed_listing (Files (Some file))
     = (Json (Some e), 500))
  /\ (forall e,
        load_workbook file_bytes = Raise e ->
        split_excel size_limit_text allowed_listing (Files (Some file))
        = (Json (Some ("Error processing Excel file: " +:+ e)), 500)).
Proof.
  intros Hne Hext Hread Hvalid.
  assert (Hfail : forall files e,
            fst (split_excel_by_sheets_simple file_bytes (filename file))
            = Ok (files, Some e) ->
            split_excel size_limit_text allowed_listing (Files (Some file))
            = (Json (Some e), 500)).
  { intros files e Hsplit. unfold split_excel.
    destruct (String.eqb_spec (filename file) EmptyString); [done|].
    rewrite Hext, Hread, Hvalid, Hsplit. cbn [negb].
    by rewrite (split_error_truthy _ _ _ _ Hsplit). }
  split; [exact Hfail|].
  intros e Hload. apply (Hfail ∅). by apply split_load_error.
Qed.

(** X20. A validated upload that is split without an error message is
    answered with status 200: the workbook itself, under the name of its
    entry, when the mapping has one entry; otherwise a zip archive of all
    the entries, named after the upload. *)
Theorem successful_split_is_download file file_bytes files :
  filename file <> EmptyString ->
  allowed_file (filename file) = true ->
  read file = Ok file_bytes ->
  fst (validate_excel_file file_bytes) = Ok (true, None) ->
  fst (split_excel_by_sheets_simple file_bytes (filename file)) = Ok (files, None) ->
  (forall k b, files = {[ k := b ]} ->
     split_excel size_limit_text allowed_listing (Files (Some file))
     = (Attachment k xlsx_mimetype (WorkbookBytes b), 200))
  /\ (size files <> 1%nat ->
      split_excel size_limit_text allowed_listing (Files (Some file))
      = (Attachment (fst (Py.splitext (filename file)) +:+ "_split.zip")
           "application/zip" (ZipArchive files), 200)).
Proof.
  intros Hne Hext Hread Hvalid Hsplit.
  assert (Hfiles : files <> ∅).
  { destruct (split_outcome_invariant file_bytes (filename file))
      as (files' & err & log & Hrun & Hinv).
    rewrite Hrun in Hsplit. injection Hsplit as -> ->. by apply Hinv. }
  unfold split_excel.
  destruct (String.eqb_spec (filename file) EmptyString); [done|].
  rewrite Hext, Hread, Hvalid, Hsplit. cbn [negb truthy_message].
  rewrite decide_False by done. split.
  - intros k b ->. by rewrite map_to_list_singleton.
  - intros Hsize. rewrite <- length_map_to_list in Hsize. unfold create_zip_response.
    by destruct (map_to_list files) as [|[k b] [|? ?]].
Qed.

End Answers.


(** ** The further properties on the sample inputs *)
Section FurtherExercised.
Import Sample Upload.

Lemma sanitize_filename_unchanged_witness : sanitize_filename "Summary" = "Summary"%string.
Proof.
  apply sanitize_filename_unchanged.
  - intros c Hc. simpl in Hc.
    repeat (apply elem_of_cons in Hc as [->|Hc]; [reflexivity|]).
    apply elem_of_nil in Hc. destruct Hc.
  - reflexivity.
  - discriminate.
  - simpl. lia.
Defined.

Lemma sanitize_filename_idempotent_witness :
  sanitize_filename (sanitize_filename " Q1/Q2: plan?. ")
  = sanitize_filename " Q1/Q2: plan?. ".
Proof. apply sanitize_filename_idempotent. simpl. lia. Defined.

Lemma sanitize_filename_blank_witness : sanitize_filename " .. " = "unnamed"%string.
Proof.
  apply sanitize_filename_blank. intros c Hc. simpl in Hc.
  repeat (apply elem_of_cons in Hc as [->|Hc]; [tauto|]).
  apply elem_of_nil in Hc. destruct Hc.
Defined.

Lemma allowed_file_by_extension_witness :
  (allowed_file ("Report" +:+ "." +:+ "XLSX") = true
   <-> Py.lower "XLSX" ∈ ALLOWED_EXTENSIONS)
  /\ allowed_file "README" = false.
Proof.
  apply (allowed_file_by_extension "Report" "XLSX" "README");
    simpl; rewrite !not_elem_of_cons; split_and!; try discriminate; apply not_elem_of_nil.
Defined.

Lemma rebuilt_sheet_shape_witness :
  title (fst (@copy_sheet (library report []) summary "Summary")) = "Summary"%string
  /\ merged_cells (fst (@copy_sheet (library report []) summary "Summary"))
     = {[ ((2, 2), (4, 4))%positive ]}
  /\ cells summary !! (1, 4)%positive = None
  /\ is_Some (cells (fst (@copy_sheet (library report []) summary "Summary"))
                !! (1, 4)%positive).
Proof.
  destruct (@rebuilt_sheet_shape (library report []) report "Summary"
              (list_byte_of_string "Summary"))
    as (source_ws & Hg & _ & Ht & _ & Hm & Hcells).
  - vm_compute. reflexivity.
  - assert (Hws : Ok source_ws = Ok summary) by (rewrite <- Hg; reflexivity).
    injection Hws as ->.
    split; [exact Ht|]. split; [rewrite Hm; by vm_compute|].
    split; [by vm_compute|].
    apply Hcells; [by vm_compute | by vm_compute | by vm_compute].
Defined.

(** The cell of the Arial workbook comes out with the font of the new
    workbook. *)
Lemma unstyled_cell_keeps_target_defaults_witness :
  exists target_cell,
    cells (fst (@copy_sheet (library report []) arial_sheet "Arial")) !! (1, 1)%positive
    = Some target_cell
    /\ value target_cell = VText "plain"
    /\ font target_cell = default_font
    /\ font target_cell <> font arial.
Proof.
  destruct (@unstyled_cell_keeps_target_defaults (library report [])
              {| worksheets := [arial_sheet] |} "Arial" (list_byte_of_string "Arial"))
    as (source_ws & Hg & _ & Hcells).
  - vm_compute. reflexivity.
  - assert (Hws : Ok source_ws = Ok arial_sheet) by (rewrite <- Hg; reflexivity).
    injection Hws as ->.
    destruct (Hcells (1, 1)%positive arial) as (t & _ & Hb & _ & Hf & _ & _ & _ & Hfinal).
    + vm_compute. reflexivity.
    + reflexivity.
    + exists t. split.
      * apply Hfinal. intros x Hx.
        assert (Hm : merged_cells arial_sheet = ∅) by (vm_compute; reflexivity).
        rewrite Hm in Hx. by apply elem_of_empty in Hx.
      * split; [|split].
        -- vm_compute in Hb. by injection Hb as <-.
        -- exact Hf.
        -- rewrite Hf. vm_compute. discriminate.
Defined.

Lemma styled_cell_copied_witness :
  exists target_cell,
    cells (fst (@copy_sheet (library report []) sized "Sized")) !! (1, 2)%positive
    = Some target_cell
    /\ value target_cell = value styled
    /\ font target_cell = font styled
    /\ fill target_cell = fill styled
    /\ border target_cell = border styled
    /\ number_format target_cell = number_format styled.
Proof.
  destruct (@styled_cell_copied (library report []) {| worksheets := [sized] |} "Sized"
              (list_byte_of_string "Sized"))
    as (source_ws & Hg & _ & Hcells).
  - vm_compute. reflexivity.
  - assert (Hws : Ok source_ws = Ok sized) by (rewrite <- Hg; reflexivity).
    injection Hws as ->.
    destruct (Hcells (1, 2)%positive styled (font styled) (fill styled) (border styled)
                (alignment styled) (number_format styled))
      as (assigned & t & _ & Hb & _ & Hv & Hf & Hfi & Hbo & _ & Hn & Hfinal);
      [vm_compute; reflexivity | reflexivity..|].
    exists t. split.
    + apply Hfinal. intros x Hx.
      assert (Hm : merged_cells sized = ∅) by (vm_compute; reflexivity).
      rewrite Hm in Hx. by apply elem_of_empty in Hx.
    + split; [|by split_and!]. rewrite Hv. vm_compute in Hb. by injection Hb as <-.
Defined.

Lemma output_count_bounded_witness :
  Z.of_nat (size ({[ "Report_Summary.xlsx"%string := list_byte_of_string "Summary" ]}
                    : gmap string bytes))
  <= Z.max 0 (@MAX_SHEETS (ceiling 2)).
Proof.
  apply (@output_count_bounded (ceiling 2) (library report []) [] "Report.xlsx" _ None).
  vm_compute. reflexivity.
Defined.

Lemma select_by_state_witness :
  select report = (Ok (["Summary"%string], ["RawData"%string]), []).
Proof.
  apply (select_by_state report).
  apply (bool_decide_unpack _). vm_compute. exact I.
Defined.

Lemma refused_extension_is_400_witness :
  @split_excel (ceiling 100) (library report []) "50.0" "xlsx, xls, xlsm, xlsb"
    (named "notes.txt")
  = (Json (Some "Invalid file type. Allowed types: xlsx, xls, xlsm, xlsb"%string), 400).
Proof.
  apply (@refused_extension_is_400 (ceiling 100) (library report []) "50.0"
           "xlsx, xls, xlsm, xlsb" {| filename := "notes.txt"; read := Ok [] |});
    [discriminate | reflexivity].
Defined.

Lemma rejected_container_is_400_witness :
  @split_excel (ceiling 100) not_a_zip "50.0" "xlsx, xls, xlsm, xlsb" (named "Report.xlsx")
  = (Json (Some "Invalid Excel file: File is not a zip file"%string), 400).
Proof.
  apply (@rejected_container_is_400 (ceiling 100) not_a_zip "50.0" "xlsx, xls, xlsm, xlsb"
           {| filename := "Report.xlsx"; read := Ok [] |} [] "File is not a zip file");
    [discriminate | reflexivity..].
Defined.

(** Bytes that the validation lets through and that the loader of the
    splitting function refuses. *)
Lemma failed_split_is_500_witness :
  fst (@validate_excel_file fill_raises []) = Ok (true, None)
  /\ @split_excel (ceiling 100) fill_raises "50.0" "xlsx, xls, xlsm, xlsb"
       (named "Report.xlsx")
     = (Json (Some "Error processing Excel file: not a container"%string), 500).
Proof.
  split; [reflexivity|].
  apply (@failed_split_is_500 (ceiling 100) fill_raises "50.0" "xlsx, xls, xlsm, xlsb"
           {| filename := "Report.xlsx"; read := Ok [] |} []);
    [discriminate | reflexivity..].
Defined.

Lemma successful_split_is_download_witness :
  @split_excel (ceiling 100) (library report []) "50.0" "xlsx, xls, xlsm, xlsb"
    (named "Report.xlsx")
  = (Attachment "Report_Summary.xlsx" xlsx_mimetype
       (WorkbookBytes (list_byte_of_string "Summary")), 200).
Proof.
  apply (@successful_split_is_download (ceiling 100) (library report []) "50.0"
           "xlsx, xls, xlsm, xlsb" {| filename := "Report.xlsx"; read := Ok [] |} []
           {[ "Report_Summary.xlsx"%string := list_byte_of_string "Summary" ]});
    [discriminate | reflexivity | reflexivity | reflexivity | vm_compute; reflexivity
    | reflexivity].
Defined.

End FurtherExercised.

